(** * eis_toolkit: raster resampling, statistical tests, one-hot encoding

    A shallow embedding of the validation and marshalling code of
    [eis_toolkit] and the properties its specification states about it.

    Conventions of the embedding.
    - Python [int] is [Z]; Python [float] is an exact rational [Q] (every
      finite float is one); arithmetic on floats is exact rational
      arithmetic, so rounding error of the host floats is outside the model.
    - An exception is a value of [exn]; a function that may raise returns a
      [result].  Code that touches the outside world (reading a raster,
      calling a numerical routine, allocating a table) runs in the
      state-and-error monad [ST], whose state is the log of those actions
      or the store of tables.
    - The numerical libraries (rasterio's resampling kernels, scipy's
      Shapiro-Wilk statistic, pandas' correlation) are oracles: fields of
      the input or section variables. *)

From Stdlib Require Import ZArith QArith Qround Qabs Lqa Reals Qreals Lia.
From stdpp Require Import base gmap strings list pretty sorting.

Set Default Proof Using "Type".

(** ** Exceptions, results and the state-and-error monad *)

Module Py.

(** The exception classes of [eis_toolkit.exceptions] that the embedded code
    raises, and the built-in ones that surface from the libraries. *)
Inductive exn : Type :=
| NumericValueSignException
| EmptyDataFrameException
| EmptyDataException
| InvalidDatasetException
| InvalidColumnException
| NonNumericDataException
| SampleSizeExceededException
| InvalidParameterValueException
| ZeroDivisionError
| KeyError
| TypeError
| ValueError
| LibraryError.

Inductive result (A : Type) : Type :=
| Ok (a : A)
| Raise (e : exn).

Arguments Ok {A} a.
Arguments Raise {A} e.

(** A computation over a state [S] that returns a value or raises; the state
    reached at the raise is kept. *)
Definition ST (S A : Type) : Type := S -> result A * S.

Definition st_ret {S A} (a : A) : ST S A := fun s => (Ok a, s).

Definition st_bind {S A B} (k : A -> ST S B) (m : ST S A) : ST S B :=
  fun s =>
    match m s with
    | (Ok a, s') => k a s'
    | (Raise e, s') => (Raise e, s')
    end.

Definition raise {S A} (e : exn) : ST S A := fun s => (Raise e, s).

Definition lift {S A} (r : result A) : ST S A := fun s => (r, s).

#[global] Instance st_mret {S} : MRet (ST S) := @st_ret S.
#[global] Instance st_mbind {S} : MBind (ST S) := @st_bind S.

End Py.

Import Py.

(** ** [eis_toolkit.raster_processing.resampling] *)

Module Resampling.

Local Open Scope Q_scope.

(** [rasterio.enums.Resampling]. *)
Inductive Resampling : Type :=
| nearest | bilinear | cubic | cubic_spline | lanczos | average | mode
| gauss | max | min | med | q1 | q3 | sum | rms.

(** [affine.Affine]: the six coefficients of
    [x' = a x + b y + c], [y' = d x + e y + f]. *)
Record Affine : Type := mkAffine {
  a : Q; b : Q; c : Q; d : Q; e : Q; f : Q
}.

(** [Affine.scale(sx, sy)]. *)
Definition affine_scale (sx sy : Q) : Affine :=
  mkAffine sx 0 0 0 sy 0.

(** [Affine.__mul__] on two transforms. *)
Definition affine_mul (s o : Affine) : Affine :=
  mkAffine (a s * a o + b s * d o)
           (a s * b o + b s * e o)
           (a s * c o + b s * f o + c s)
           (d s * a o + e s * d o)
           (d s * b o + e s * e o)
           (d s * c o + e s * f o + f s).

(** The dictionary [raster.meta]; its keys are fixed, so it is a record. *)
Record Meta : Type := mkMeta {
  driver : string;
  dtype : string;
  nodata : option Q;
  width : Z;
  height : Z;
  count : Z;
  crs : string;
  transform : Affine
}.

(** The array [raster.read] returns: its three-dimensional shape
    (bands, rows, columns) and its samples. *)
Record ndarray : Type := mkArray {
  shape : Z * Z * Z;
  samples : list Q
}.

(** [out_image.shape[-1]] and [out_image.shape[-2]]. *)
Definition shape_last (img : ndarray) : Z := snd (shape img).
Definition shape_last2 (img : ndarray) : Z := snd (fst (shape img)).

(** [rasterio.io.DatasetReader]: the metadata of the opened file and the
    library's resampling read, an oracle from the requested shape and method
    to the samples, or nothing when the library refuses. *)
Record DatasetReader : Type := mkReader {
  meta : Meta;
  pixels : Z * Z * Z -> Resampling -> option (list Q)
}.

(** One raster read, as logged. *)
Inductive event : Type :=
| Read (out_shape : Z * Z * Z) (resampling : Resampling).

Definition IO : Type -> Type := ST (list event).

(** [raster.read(out_shape=..., resampling=...)]: the read is logged, then
    yields an array of the requested shape or the library's failure. *)
Definition read (raster : DatasetReader) (out_shape : Z * Z * Z)
    (resampling : Resampling) : IO ndarray :=
  fun log =>
    (match pixels raster out_shape resampling with
     | Some px => Ok (mkArray out_shape px)
     | None => Raise LibraryError
     end, log ++ [Read out_shape resampling]).

(** Python's [round] of a float to an [int]: to the nearest integer, a tie
    to the even one. *)
Definition py_round (x : Q) : Z :=
  let fl := Qfloor x in
  match Qcompare (x - inject_Z fl) (1 # 2) with
  | Lt => fl
  | Gt => (fl + 1)%Z
  | Eq => if Z.even fl then fl else (fl + 1)%Z
  end.

(** [x / y] on two [int]s. *)
Definition py_truediv (x y : Z) : result Q :=
  if (y =? 0)%Z then Raise ZeroDivisionError
  else Ok (inject_Z x / inject_Z y).

(** [out_meta.update({...})] on the copy of [raster.meta]. *)
Definition meta_update (m : Meta) (t : Affine) (w h : Z) (nd : Q) : Meta :=
  mkMeta (driver m) (dtype m) (Some nd) w h (count m) (crs m) t.

(** Modelled from the spec: [check_numeric_value_sign] of
    [eis_toolkit.checks.parameter] is not among the sources; the spec asks
    for a strictly positive factor ("the horizontal scale factor must be
    strictly positive"), so the check holds exactly of the positive
    numbers. *)
Definition check_numeric_value_sign (parameter_value : Q) : bool :=
  negb (Qle_bool parameter_value 0).

Definition _resample (raster : DatasetReader) (resampling_method : Resampling)
    (upscale_factor : Q) (upscale_factor_y : option Q) : IO (ndarray * Meta) :=
  let upscale_factor_y :=
    match upscale_factor_y with
    | None => upscale_factor
    | Some y => y
    end in
  out_image ← read raster
    (count (meta raster),
     py_round (inject_Z (height (meta raster)) * upscale_factor),
     py_round (inject_Z (width (meta raster)) * upscale_factor_y))
    resampling_method;
  sx ← lift (py_truediv (width (meta raster)) (shape_last out_image));
  sy ← lift (py_truediv (height (meta raster)) (shape_last2 out_image));
  let out_transform :=
    affine_mul (transform (meta raster)) (affine_scale sx sy) in
  let out_meta :=
    meta_update (meta raster) out_transform
      (shape_last out_image) (shape_last2 out_image) 0 in
  mret (out_image, out_meta).

Definition resample (raster : DatasetReader) (upscale_factor : Q)
    (upscale_factor_y : option Q) (resampling_method : Resampling)
    : IO (ndarray * Meta) :=
  if negb (check_numeric_value_sign upscale_factor)
  then raise NumericValueSignException
  else
    '(out_image, out_meta) ←
      _resample raster resampling_method upscale_factor upscale_factor_y;
    mret (out_image, out_meta).

(** The shape [_resample] asks the library for. *)
Definition requested_shape (raster : DatasetReader) (sx : Q) (sy : option Q)
    : Z * Z * Z :=
  (count (meta raster),
   py_round (inject_Z (height (meta raster)) * sx),
   py_round (inject_Z (width (meta raster)) * default sx sy)).

(** The horizontal and the vertical pixel size of a transform. *)
Definition pixel_size_x (t : Affine) : Q := a t.
Definition pixel_size_y (t : Affine) : Q := e t.

(** A north-up raster of [w] columns and [h] rows with unit pixels, whose
    reads always succeed; used to run the code on concrete inputs. *)
Definition grid (w h : Z) : DatasetReader :=
  mkReader
    (mkMeta "GTiff" "float32" None w h 1 "EPSG:3067"
       (mkAffine 1 0 0 0 (-1) 0))
    (fun _ _ => Some []).

End Resampling.

(** ** [eis_toolkit.transformations.coda.pairwise] *)

Module Pairwise.

(** Modelled from the spec: [single_pairwise_logratio] is not among the
    sources, only its tests are.  The spec describes a logratio-style
    transform of two operands that "with a zero operand always fails with an
    invalid-parameter error" and that returns the neutral value on two equal
    positive operands; the tests call it on two floats.  The model is the
    natural logarithm of the quotient behind a guard on zero operands. *)
Definition single_pairwise_logratio (numerator denominator : Q) : result R :=
  if Qeq_bool numerator 0 || Qeq_bool denominator 0
  then Raise InvalidParameterValueException
  else Ok (ln (Q2R numerator / Q2R denominator)).

End Pairwise.

(** ** The tables of [pandas] and the arrays of [numpy] *)

Module Pandas.

(** A column or row label, and a categorical cell: a Python [int] or
    [str]. *)
Inductive scalar : Type :=
| SInt (i : Z)
| SStr (s : string).

#[global] Instance scalar_eq_dec : EqDecision scalar.
Proof. solve_decision. Defined.

#[global] Instance scalar_countable : Countable scalar :=
  inj_countable'
    (fun x => match x with SInt i => inl i | SStr s => inr s end)
    (fun y => match y with inl i => SInt i | inr s => SStr s end)
    (fun x => match x with SInt _ => eq_refl | SStr _ => eq_refl end).

(** [str(x)]. *)
Definition str (x : scalar) : string :=
  match x with
  | SInt i => pretty i
  | SStr s => s
  end.

(** [pandas.DataFrame] with cells of type [C], column by column: the row
    labels, and each column's label with its cells from the first row to the
    last. *)
Record DataFrame (C : Type) : Type := mkFrame {
  df_index : list scalar;
  df_columns : list (scalar * list C)
}.

Arguments mkFrame {C} df_index df_columns.
Arguments df_index {C} d.
Arguments df_columns {C} d.

(** [numpy.ndarray] with elements of type [C]: the shape and the elements in
    row-major order. *)
Record ndarray (C : Type) : Type := mkNdarray {
  nd_shape : list nat;
  nd_elems : list C
}.

Arguments mkNdarray {C} nd_shape nd_elems.
Arguments nd_shape {C} n.
Arguments nd_elems {C} n.

Section Frames.
Context {C : Type}.

(** Every column has one cell per row. *)
Definition well_formed (df : DataFrame C) : Prop :=
  Forall (fun col => length (snd col) = length (df_index df)) (df_columns df).

(** [df.columns]. *)
Definition labels (df : DataFrame C) : list scalar :=
  map fst (df_columns df).

(** [df.empty]: some axis has length zero. *)
Definition empty (df : DataFrame C) : bool :=
  match df_index df, df_columns df with
  | _ :: _, _ :: _ => false
  | _, _ => true
  end.

(** [len(df)]. *)
Definition nrows (df : DataFrame C) : nat := length (df_index df).

(** [df[label]], the cells of the column that carries the label (the first
    one, should several carry it). *)
Definition getitem (df : DataFrame C) (label : scalar) : result (list C) :=
  match List.find (fun col => bool_decide (fst col = label)) (df_columns df) with
  | Some col => Ok (snd col)
  | None => Raise KeyError
  end.

(** [df[labels]], a new table of the columns that carry the labels, in the
    order asked for. *)
Definition getitems (df : DataFrame C) (ls : list scalar)
    : result (DataFrame C) :=
  if forallb (fun l => bool_decide (l ∈ labels df)) ls
  then Ok (mkFrame (df_index df)
             (flat_map
                (fun l => List.filter (fun col => bool_decide (fst col = l))
                            (df_columns df))
                ls))
  else Raise KeyError.

(** The rows [dropna] keeps: those without a missing cell. *)
Fixpoint row_mask (isna : C -> bool) (cols : list (scalar * list C))
    (n : nat) : list bool :=
  match cols with
  | [] => replicate n true
  | col :: cols' =>
      zip_with andb (map (fun x => negb (isna x)) (snd col))
        (row_mask isna cols' n)
  end.

Fixpoint filter_mask {A} (mask : list bool) (l : list A) : list A :=
  match mask, l with
  | keep :: mask', x :: l' =>
      if keep then x :: filter_mask mask' l' else filter_mask mask' l'
  | _, _ => []
  end.

(** [df.dropna()]. *)
Definition dropna (isna : C -> bool) (df : DataFrame C) : DataFrame C :=
  let mask := row_mask isna (df_columns df) (nrows df) in
  mkFrame (filter_mask mask (df_index df))
    (map (fun col => (fst col, filter_mask mask (snd col))) (df_columns df)).

(** [df.drop(labels, axis=1)], a new table without the columns that carry
    one of the labels. *)
Definition drop_columns (df : DataFrame C) (ls : list scalar)
    : result (DataFrame C) :=
  if forallb (fun l => bool_decide (l ∈ labels df)) ls
  then Ok (mkFrame (df_index df)
             (List.filter (fun col => negb (bool_decide (fst col ∈ ls)))
                (df_columns df)))
  else Raise KeyError.

(** [pd.concat([left, right], axis=1)] of two tables over one index. *)
Definition concat_columns (left right : DataFrame C) : DataFrame C :=
  mkFrame (df_index left) (df_columns left ++ df_columns right).

(** [data.size]. *)
Definition size (data : ndarray C) : nat := foldr Nat.mul 1%nat (nd_shape data).

(** [len(data)]: the length of the first axis; an array without axes has
    none. *)
Definition len (data : ndarray C) : result nat :=
  match nd_shape data with
  | [] => Raise TypeError
  | n :: _ => Ok n
  end.

(** [range(n)] as row or column labels. *)
Definition range_index (n : nat) : list scalar :=
  map (fun i => SInt (Z.of_nat i)) (seq 0 n).

(** [pd.DataFrame(data)] of an array of one or two axes. *)
Definition frame_of_array (data : ndarray C) : result (DataFrame C) :=
  match nd_shape data with
  | [n] => Ok (mkFrame (range_index n) [(SInt 0, nd_elems data)])
  | [n; m] =>
      Ok (mkFrame (range_index n)
            (map (fun j =>
                    (SInt (Z.of_nat j),
                     omap (fun i => nd_elems data !! (i * m + j)%nat) (seq 0 n)))
               (seq 0 m)))
  | _ => Raise ValueError
  end.

End Frames.

(** Modelled from the spec: [check_empty_dataframe] of
    [eis_toolkit.utilities.checks.dataframe] is not among the sources; the
    spec names it an "empty-dataframe check" that guards against "an empty
    table", so it is the table's own [empty]. *)
Definition check_empty_dataframe {C} (df : DataFrame C) : bool := empty df.

(** Modelled from the spec: [check_columns_valid] of the same module is not
    among the sources; the spec's invariant is that a "column must exist in
    the table" and the code's message that "all selected columns were not
    found", so it holds when every selected column is a column of the
    table. *)
Definition check_columns_valid {C} (df : DataFrame C) (columns : list string)
    : bool :=
  forallb (fun column => bool_decide (SStr column ∈ labels df)) columns.

End Pandas.

(** ** [eis_toolkit.exploratory_analyses.statistical_tests] *)

Module StatisticalTests.
Import Pandas.

(** A cell of a table or array under test: a number, a missing value, or
    anything that is not a number. *)
Inductive cell : Type :=
| Num (x : Q)
| NaN
| Obj (s : string).

Definition isna (x : cell) : bool :=
  match x with NaN => true | _ => false end.

Definition is_number (x : cell) : bool :=
  match x with Obj _ => false | _ => true end.

Inductive correlation_method : Type := pearson | kendall | spearman.

(** What the module calls and the sources do not hold: the column-type
    check of [eis_toolkit.utilities.checks.dataframe], about which the spec
    says no more than that it is one, and the numerical routines of scipy
    and pandas, which answer or fail. *)
Record Externals : Type := mkExternals {
  check_columns_numeric : DataFrame cell -> list scalar -> bool;
  shapiro : list cell -> option (Q * Q);
  corr : DataFrame cell -> correlation_method -> option Z
         -> option (DataFrame cell);
  cov : DataFrame cell -> option Z -> Z -> option (DataFrame cell)
}.

(** The calls to them, as logged. *)
Inductive event : Type :=
| CheckNumeric (columns : list scalar)
| Shapiro (sample : list cell)
| Corr (method : correlation_method) (min_periods : option Z)
| Cov (min_periods : option Z) (ddof : Z).

Definition Run : Type -> Type := ST (list event).

(** The input of [normality_test], a table or an array, and its output, the
    statistic and p-value of each column or of the whole array. *)
Inductive input : Type :=
| Frame (df : DataFrame cell)
| Array (a : ndarray cell).

Inductive statistics : Type :=
| PerColumn (d : gmap scalar (Q * Q))
| Whole (t : Q * Q).

Section Code.
Variable E : Externals.

Definition call_check_columns_numeric (df : DataFrame cell)
    (columns : list scalar) : Run bool :=
  fun log => (Ok (check_columns_numeric E df columns),
              log ++ [CheckNumeric columns]).

Definition call_shapiro (sample : list cell) : Run (Q * Q) :=
  fun log =>
    (match shapiro E sample with
     | Some t => Ok t
     | None => Raise ValueError
     end, log ++ [Shapiro sample]).

Definition call_corr (df : DataFrame cell) (method : correlation_method)
    (min_periods : option Z) : Run (DataFrame cell) :=
  fun log =>
    (match corr E df method min_periods with
     | Some m => Ok m
     | None => Raise LibraryError
     end, log ++ [Corr method min_periods]).

Definition call_cov (df : DataFrame cell) (min_periods : option Z) (ddof : Z)
    : Run (DataFrame cell) :=
  fun log =>
    (match cov E df min_periods ddof with
     | Some m => Ok m
     | None => Raise LibraryError
     end, log ++ [Cov min_periods ddof]).

(** The loop [for column in columns] of [normality_test]. *)
Fixpoint test_columns (data : DataFrame cell) (columns : list scalar)
    (statistics : gmap scalar (Q * Q)) : Run (gmap scalar (Q * Q)) :=
  match columns with
  | [] => mret statistics
  | column :: columns' =>
      sample ← lift (getitem data column);
      if (5000 <? Z.of_nat (length sample))%Z
      then raise SampleSizeExceededException
      else
        t ← call_shapiro sample;
        test_columns data columns' (<[column := t]> statistics)
  end.

Definition normality_test (data : input) (columns : option (list string))
    : Run statistics :=
  match data with
  | Frame data =>
      if check_empty_dataframe data then raise EmptyDataException
      else
        match columns with
        | Some columns =>
            if negb (check_columns_valid data columns)
            then raise InvalidColumnException
            else
              numeric ← call_check_columns_numeric data (map SStr columns);
              if negb numeric then raise NonNumericDataException
              else
                selected ← lift (getitems data (map SStr columns));
                let data := dropna isna selected in
                d ← test_columns data (map SStr columns) ∅;
                mret (PerColumn d)
        | None =>
            numeric ← call_check_columns_numeric data (labels data);
            if negb numeric then raise NonNumericDataException
            else
              d ← test_columns data (labels data) ∅;
              mret (PerColumn d)
        end
  | Array data =>
      if (size data =? 0)%nat then raise EmptyDataException
      else
        n ← lift (len data);
        if (5000 <? Z.of_nat n)%Z then raise SampleSizeExceededException
        else
          if negb (forallb is_number (nd_elems data)) then raise TypeError
          else
            let flattened_data :=
              List.filter (fun x => negb (isna x)) (nd_elems data) in
            t ← call_shapiro flattened_data;
            mret (Whole t)
  end.

Definition correlation_matrix (data : DataFrame cell)
    (correlation_method : correlation_method) (min_periods : option Z)
    : Run (DataFrame cell) :=
  if check_empty_dataframe data then raise EmptyDataFrameException
  else
    numeric ← call_check_columns_numeric data (labels data);
    if negb numeric then raise NonNumericDataException
    else
      match correlation_method, min_periods with
      | kendall, Some _ => raise InvalidParameterValueException
      | _, _ => call_corr data correlation_method min_periods
      end.

Definition covariance_matrix (data : DataFrame cell) (min_periods : option Z)
    (delta_degrees_of_freedom : Z) : Run (DataFrame cell) :=
  if check_empty_dataframe data then raise EmptyDataFrameException
  else
    numeric ← call_check_columns_numeric data (labels data);
    if negb numeric then raise NonNumericDataException
    else
      if (delta_degrees_of_freedom <? 0)%Z
      then raise InvalidParameterValueException
      else
        match min_periods with
        | Some p =>
            if negb (p =? 0)%Z && (p <? 0)%Z
            then raise InvalidParameterValueException
            else call_cov data min_periods delta_degrees_of_freedom
        | None => call_cov data min_periods delta_degrees_of_freedom
        end.

End Code.

(** A table of one numeric column of [n] rows, and a bare set of
    externals, to run the code on concrete inputs. *)
Definition column_of (name : string) (n : nat) : DataFrame cell :=
  mkFrame (range_index n) [(SStr name, replicate n (Num 1))].

Definition plain_externals : Externals :=
  mkExternals (fun df columns => true) (fun sample => Some (1, 1)%Q)
    (fun df _ _ => Some df) (fun df _ _ => Some df).

End StatisticalTests.

(** ** [eis_toolkit.transformations.one_hot_encoding] *)

Module OneHotEncoding.
Import Pandas.

(** Tables are objects: a variable holds the location of a table in the
    store, and two variables may hold the same one. *)
Definition loc : Type := positive.

Definition Heap : Type -> Type := ST (gmap loc (DataFrame scalar)).

(** A new table object. *)
Definition alloc (df : DataFrame scalar) : Heap loc :=
  fun store => let l := fresh (dom store) in (Ok l, <[l := df]> store).

(** The table a variable refers to. *)
Definition load (l : loc) : Heap (DataFrame scalar) :=
  fun store =>
    (match store !! l with
     | Some df => Ok df
     | None => Raise LibraryError
     end, store).

(** The order in which the encoder sorts the categories of a column: that of
    the integers, or of the strings. *)
Definition scalar_le (x y : scalar) : Prop :=
  match x, y with
  | SInt i, SInt j => (i <= j)%Z
  | SStr s, SStr t => String.leb s t = true
  | SInt _, SStr _ => True
  | SStr _, SInt _ => False
  end.

#[global] Instance scalar_le_dec (x y : scalar) : Decision (scalar_le x y).
Proof. destruct x, y; simpl; apply _. Defined.

Definition is_int (x : scalar) : bool :=
  match x with SInt _ => true | SStr _ => false end.

(** A column the encoder accepts holds integers only or strings only. *)
Definition uniform (values : list scalar) : bool :=
  forallb is_int values || forallb (fun x => negb (is_int x)) values.

(** The categories the encoder finds in a column: its distinct values in
    ascending order. *)
Definition categories_of (values : list scalar) : result (list scalar) :=
  if uniform values
  then Ok (merge_sort scalar_le (remove_dups values))
  else Raise TypeError.

(** [drop_category]: [None], ["first"] or ["if_binary"]. *)
Inductive drop_choice : Type := first | if_binary.

(** The categories of a feature that get a column under [drop]. *)
Definition retained (drop : option drop_choice) (cats : list scalar)
    : list scalar :=
  match drop with
  | None => cats
  | Some first => tail cats
  | Some if_binary => if (length cats =? 2)%nat then tail cats else cats
  end.

(** [sklearn.preprocessing.OneHotEncoder] with the frequency limits
    [min_frequency] and [max_categories] left at [None], once fitted. *)
Record OneHotEncoder : Type := mkEncoder {
  drop : option drop_choice;
  sparse_output : bool;
  categories_ : list (list scalar)
}.

(** The matrix the encoder returns, sparse or dense, column by column. *)
Record matrix : Type := mkMatrix {
  is_sparse : bool;
  mat_columns : list (list Z)
}.

(** The indicator column of one category. *)
Definition indicator (category : scalar) (values : list scalar) : list Z :=
  map (fun v => if bool_decide (v = category) then 1%Z else 0%Z) values.

Fixpoint fit (columns : list (list scalar)) : result (list (list scalar)) :=
  match columns with
  | [] => Ok []
  | values :: columns' =>
      match categories_of values with
      | Ok cats =>
          match fit columns' with
          | Ok rest => Ok (cats :: rest)
          | Raise err => Raise err
          end
      | Raise err => Raise err
      end
  end.

(** [encoder.fit_transform(X)]. *)
Definition fit_transform (drop : option drop_choice) (sparse_output : bool)
    (X : DataFrame scalar) : result (OneHotEncoder * matrix) :=
  match fit (map snd (df_columns X)) with
  | Ok cats =>
      Ok (mkEncoder drop sparse_output cats,
          mkMatrix sparse_output
            (concat
               (zip_with
                  (fun values cs =>
                     map (fun category => indicator category values)
                       (retained drop cs))
                  (map snd (df_columns X)) cats)))
  | Raise err => Raise err
  end.

(** The [feature_name_combiner] that [one_hot_encode] passes. *)
Definition feature_name_combiner (feature category : scalar) : string :=
  str feature +:+ "_" +:+ str category.

(** [encoder.get_feature_names_out(input_features)]. *)
Definition get_feature_names_out (encoder : OneHotEncoder)
    (input_features : list scalar) : list string :=
  concat
    (zip_with
       (fun feature cs =>
          map (feature_name_combiner feature) (retained (drop encoder) cs))
       input_features (categories_ encoder)).

(** [pd.DataFrame(encoded_data, columns=..., index=...)] and
    [pd.DataFrame.sparse.from_spmatrix] alike. *)
Definition frame_of_matrix (encoded_data : matrix) (columns : list string)
    (index : list scalar) : DataFrame scalar :=
  mkFrame index
    (zip_with (fun name cells => (SStr name, map SInt cells))
       columns (mat_columns encoded_data)).

(** The argument [data], a table object or an array, and the value
    returned. *)
Inductive input : Type :=
| TableAt (l : loc)
| ArrayOf (a : ndarray scalar).

Inductive output : Type :=
| Table (l : loc)
| Matrix (m : matrix).

Definition one_hot_encode (data : input) (columns : option (list string))
    (drop_encoded_columns : bool) (drop_category : option drop_choice)
    (sparse_output : bool) : Heap output :=
  let is_dataframe :=
    match data with TableAt _ => true | ArrayOf _ => false end in
  df ← match data with
       | TableAt l =>
           d ← load l;
           if empty d then raise EmptyDataFrameException
           else alloc d
       | ArrayOf a =>
           if (size a =? 0)%nat then raise InvalidDatasetException
           else d ← lift (frame_of_array a); alloc d
       end;
  transform_df ← match columns with
                 | Some columns =>
                     d ← load df;
                     if negb (check_columns_valid d columns)
                     then raise InvalidColumnException
                     else
                       selected ← lift (getitems d (map SStr columns));
                       alloc selected
                 | None => mret df
                 end;
  X ← load transform_df;
  '(encoder, encoded_data) ← lift (fit_transform drop_category sparse_output X);
  let encoded_cols := get_feature_names_out encoder (labels X) in
  if is_dataframe then
    d ← load df;
    encoded_df ← alloc (frame_of_matrix encoded_data encoded_cols (df_index d));
    df ← (if drop_encoded_columns
          then d' ← lift (drop_columns d (labels X)); alloc d'
          else mret df);
    left ← load df;
    right ← load encoded_df;
    out ← alloc (concat_columns left right);
    mret (Table out)
  else mret (Matrix encoded_data).

(** What [one_hot_encode] computes from the table its argument refers to,
    with the store left out; [one_hot_encode_table] below relates the
    two. *)
Definition encode_table (data : DataFrame scalar)
    (columns : option (list string)) (drop_encoded_columns : bool)
    (drop_category : option drop_choice) (sparse_output : bool)
    : result (DataFrame scalar) :=
  if empty data then Raise EmptyDataFrameException
  else
    match
      match columns with
      | Some columns =>
          if negb (check_columns_valid data columns)
          then Raise InvalidColumnException
          else getitems data (map SStr columns)
      | None => Ok data
      end
    with
    | Raise err => Raise err
    | Ok X =>
        match fit_transform drop_category sparse_output X with
        | Raise err => Raise err
        | Ok (encoder, encoded_data) =>
            let encoded_df :=
              frame_of_matrix encoded_data
                (get_feature_names_out encoder (labels X)) (df_index data) in
            match
              if drop_encoded_columns then drop_columns data (labels X)
              else Ok data
            with
            | Raise err => Raise err
            | Ok kept => Ok (concat_columns kept encoded_df)
            end
        end
    end.

(** The number of distinct values of a column. *)
Definition unique_count (values : list scalar) : nat :=
  length (remove_dups values).

(** The number of indicator columns of a feature with [k] categories. *)
Definition indicator_count (drop : option drop_choice) (k : nat) : nat :=
  match drop with
  | None => k
  | Some first => (k - 1)%nat
  | Some if_binary => if (k =? 2)%nat then 1%nat else k
  end.

(** The columns of the encoded table, feature by feature: one indicator
    column, named after the feature and the category, for each retained
    category. *)
Definition blocks_of (dc : option drop_choice)
    (columns : list (scalar * list scalar)) (cats : list (list scalar))
    : list (list (scalar * list scalar)) :=
  zip_with
    (fun col cs =>
       map (fun category =>
              (SStr (feature_name_combiner (fst col) category),
               map SInt (indicator category (snd col))))
         (retained dc cs))
    columns cats.

(** The table the transform runs on: the selected columns, or the whole
    table. *)
Definition selects (data : DataFrame scalar) (columns : option (list string))
    (selected : DataFrame scalar) : Prop :=
  match columns with
  | Some columns =>
      check_columns_valid data columns = true /\
      getitems data (map SStr columns) = Ok selected
  | None => selected = data
  end.

(** The columns of the argument that the output keeps. *)
Definition kept_columns (data selected : DataFrame scalar)
    (drop_encoded_columns : bool) : list (scalar * list scalar) :=
  if drop_encoded_columns
  then List.filter (fun col => negb (bool_decide (fst col ∈ labels selected)))
         (df_columns data)
  else df_columns data.

(** What the encoder makes of one feature: as many indicator columns as
    [drop_category] leaves of its distinct values, each the indicator of one
    of the feature's values under the name [feature_value]. *)
Definition block_of_feature (dc : option drop_choice)
    (col : scalar * list scalar) (block : list (scalar * list scalar)) : Prop :=
  length block = indicator_count dc (unique_count (snd col)) /\
  Forall (fun ind =>
            exists category,
              category ∈ snd col /\
              ind = (SStr (feature_name_combiner (fst col) category),
                     map SInt (indicator category (snd col))))
    block.

(** A small table of rock samples, to run the code on concrete inputs. *)
Definition rocks : DataFrame scalar :=
  mkFrame [SInt 0; SInt 1; SInt 2; SInt 3]
    [(SStr "rock", [SStr "granite"; SStr "basalt"; SStr "granite"; SStr "gneiss"]);
     (SStr "zone", [SInt 2; SInt 1; SInt 2; SInt 2]);
     (SStr "depth", [SInt 10; SInt 20; SInt 30; SInt 40])].

End OneHotEncoding.

(** ** [chi_square_test] of [eis_toolkit.exploratory_analyses.statistical_tests] *)

Module ChiSquare.
Import Pandas StatisticalTests.

(** One contingency test, as logged: [pd.crosstab] of the target column and
    another column, handed to [chi2_contingency]. *)
Inductive event : Type :=
| Contingency (target_column column : scalar).

Section Code.

(** scipy's [chi2_contingency] of pandas' [crosstab] of two columns: the
    statistic, the p-value and the degrees of freedom, or a failure. *)
Variable chi2_contingency : list cell -> list cell -> option (Q * Q * Z).

Definition call_chi2_contingency (target_column column : scalar)
    (x y : list cell) : ST (list event) (Q * Q * Z) :=
  fun log =>
    (match chi2_contingency x y with
     | Some t => Ok t
     | None => Raise ValueError
     end, log ++ [Contingency target_column column]).

(** The loop [for column in columns] of [chi_square_test]. *)
Fixpoint test_against (data : DataFrame cell) (target_column : scalar)
    (columns : list scalar) (statistics : gmap scalar (Q * Q * Z))
    : ST (list event) (gmap scalar (Q * Q * Z)) :=
  match columns with
  | [] => mret statistics
  | column :: columns' =>
      if bool_decide (column <> target_column)
      then
        x ← lift (getitem data target_column);
        y ← lift (getitem data column);
        t ← call_chi2_contingency target_column column x y;
        test_against data target_column columns' (<[column := t]> statistics)
      else test_against data target_column columns' statistics
  end.

(** [any(invalid_columns)] on a list of strings: some string is not
    empty. *)
Definition any_truthy (names : list string) : bool :=
  existsb (fun name => negb (String.eqb name "")) names.

Definition chi_square_test (data : DataFrame cell) (target_column : string)
    (columns : option (list string))
    : ST (list event) (gmap scalar (Q * Q * Z)) :=
  if check_empty_dataframe data then raise EmptyDataFrameException
  else
    if negb (check_columns_valid data [target_column])
    then raise InvalidParameterValueException
    else
      columns ← match columns with
                | Some columns =>
                    let invalid_columns :=
                      List.filter
                        (fun column =>
                           negb (bool_decide (SStr column ∈ labels data)))
                        columns in
                    if any_truthy invalid_columns
                    then raise InvalidParameterValueException
                    else mret (map SStr columns)
                | None => mret (labels data)
                end;
      test_against data (SStr target_column) columns ∅.

End Code.

(** A table of two categorical columns, and a test that always answers, to
    run the code on concrete inputs. *)
Definition survey : DataFrame cell :=
  mkFrame [SInt 0; SInt 1; SInt 2]
    [(SStr "rock", [Obj "granite"; Obj "basalt"; Obj "granite"]);
     (SStr "altered", [Num 1; Num 0; Num 1]);
     (SStr "zone", [Num 1; Num 2; Num 2])].

Definition plain_chi2 (x y : list cell) : option (Q * Q * Z) :=
  Some (1, 1, 1%Z)%Q.

End ChiSquare.

(** ** The table and the columns [normality_test] tests *)

Module NormalityTested.
Import Pandas StatisticalTests.

(** The table whose columns [normality_test] hands to the statistic. *)
Definition tested_table (df : DataFrame cell) (columns : option (list string))
    : DataFrame cell :=
  match columns with
  | Some columns =>
      match getitems df (map SStr columns) with
      | Ok selected => dropna isna selected
      | Raise _ => df
      end
  | None => df
  end.

Definition tested_columns (df : DataFrame cell)
    (columns : option (list string)) : list scalar :=
  match columns with
  | Some columns => map SStr columns
  | None => labels df
  end.

End NormalityTested.

(** ** Rows of an encoded table *)

Module OneHotRows.
Import Pandas.

(** In row [i], the column called [name] of the block holds 1 and every
    other column of the block holds 0. *)
Definition hot_at (block : list (scalar * list scalar)) (i : nat)
    (name : scalar) : Prop :=
  exists before cells after,
    block = before ++ (name, cells) :: after /\
    cells !! i = Some (SInt 1) /\
    Forall (fun other => snd other !! i = Some (SInt 0)) (before ++ after).

End OneHotRows.

(** ** [eis_toolkit.cli_typer] *)

Module Cli.

(** The option enumerations; each member stands for its string value. *)
Inductive VariogramModel : Type :=
| linear | power | gaussian | spherical | exponential | hole_effect.

Inductive KrigingMethod : Type := ordinary | universal.

Inductive MergeStrategy : Type := replace | add.

Inductive ResamplingMethods : Type :=
| nearest | bilinear | cubic | average | gauss | max | min.

Definition value (m : ResamplingMethods) : string :=
  match m with
  | nearest => "nearest"
  | bilinear => "bilinear"
  | cubic => "cubic"
  | average => "average"
  | gauss => "gauss"
  | max => "max"
  | min => "min"
  end.

Definition RESAMPLING_MAPPING : gmap string Resampling.Resampling :=
  list_to_map
    [("nearest"%string, Resampling.nearest);
     ("bilinear"%string, Resampling.bilinear);
     ("cubic"%string, Resampling.cubic);
     ("average"%string, Resampling.average);
     ("gauss"%string, Resampling.gauss);
     ("max"%string, Resampling.max);
     ("min"%string, Resampling.min)].

(** The objects of the libraries and of the toolkit's own functions are
    opaque here and go by a number: tables of geometries, opened rasters,
    pixel arrays. *)
Definition GeoDataFrame : Type := nat.
Definition Dataset : Type := nat.
Definition Image : Type := nat.

(** A value of a metadata dictionary: an [int], a [str], the class [float]
    or an object of a library. *)
Inductive pyobj : Type :=
| PInt (i : Z)
| PStr (s : string)
| PFloatClass
| PObj (o : nat).

(** What [rasterio.open] is given to open: a path, or whatever else the
    code hands it. *)
Inductive target : Type :=
| Path (p : string)
| Pixels (img : Image).

#[global] Instance target_eq_dec : EqDecision target.
Proof. solve_decision. Defined.

(** What a command does to the outside world, as logged.  An [Open] records
    whether the file was opened. *)
Inductive event : Type :=
| Echo (message : string)
| ReadFile (path : string)
| Open (fp : target) (mode : string) (kwargs : gmap string pyobj) (opened : bool)
| Close (fp : target)
| Write (fp : target) (img : Image) (indexes : option pyobj)
| ToFile (path : string) (driver : string).

(** A command fails with an exception of the toolkit or the libraries, or
    on a local variable read before it was bound. *)
Inductive failure : Type :=
| Raised (e : exn)
| UnboundLocalError (name : string).

Inductive outcome (A : Type) : Type :=
| Done (a : A)
| Failed (f : failure).

Arguments Done {A} a.
Arguments Failed {A} f.

Definition Cmd (A : Type) : Type := list event -> outcome A * list event.

Definition cmd_ret {A} (a : A) : Cmd A := fun log => (Done a, log).

Definition cmd_bind {A B} (k : A -> Cmd B) (m : Cmd A) : Cmd B :=
  fun log =>
    match m log with
    | (Done a, log') => k a log'
    | (Failed f, log') => (Failed f, log')
    end.

#[global] Instance cmd_mret : MRet Cmd := @cmd_ret.
#[global] Instance cmd_mbind : MBind Cmd := @cmd_bind.

Definition fail {A} (f : failure) : Cmd A := fun log => (Failed f, log).

Definition of_result {A} (r : result A) : Cmd A :=
  match r with
  | Ok a => mret a
  | Raise e => fail (Raised e)
  end.

(** The libraries and the functions of the toolkit that the commands call
    and the sources do not hold. *)
Record World : Type := mkWorld {
  read_file : string -> option GeoDataFrame;
  rasterio_open : target -> string -> gmap string pyobj -> option Dataset;
  dataset_write : target -> Image -> option pyobj -> bool;
  profile : Dataset -> gmap string pyobj;
  to_file : GeoDataFrame -> string -> string -> bool;
  clip_raster : Dataset -> GeoDataFrame -> result (Image * gmap string pyobj);
  reproject_raster : Dataset -> Z -> Resampling.Resampling
                     -> result (Image * gmap string pyobj);
  snap_with_raster : Dataset -> Dataset -> result (Image * gmap string pyobj);
  extract_window : Dataset -> Q * Q -> Z -> Z
                   -> result (Image * gmap string pyobj);
  rasterize_vector : GeoDataFrame -> option Q -> option string -> Q -> Q
                     -> gmap string pyobj -> option Q -> MergeStrategy
                     -> result (Image * gmap string pyobj);
  reproject_vector : GeoDataFrame -> Z -> result GeoDataFrame;
  kriging : GeoDataFrame -> string -> Q * Q -> option (Q * Q * Q * Q)
            -> VariogramModel -> KrigingMethod -> list string
            -> result (Image * gmap string pyobj);
  distance_computation : gmap string pyobj -> GeoDataFrame -> result Image
}.

Section Commands.
Variable W : World.

(** [typer.echo(message)]. *)
Definition echo (message : string) : Cmd unit :=
  fun log => (Done tt, log ++ [Echo message]).

(** [gpd.read_file(path)]. *)
Definition gpd_read_file (path : string) : Cmd GeoDataFrame :=
  fun log =>
    (match read_file W path with
     | Some gdf => Done gdf
     | None => Failed (Raised LibraryError)
     end, log ++ [ReadFile path]).

(** [with rasterio.open(fp, mode, **kwargs) as dataset: body]: the file is
    closed when the body is left, whether it returned or raised. *)
Definition with_open {A} (fp : target) (mode : string)
    (kwargs : gmap string pyobj) (body : Dataset -> Cmd A) : Cmd A :=
  fun log =>
    match rasterio_open W fp mode kwargs with
    | Some dataset =>
        let (r, log') := body dataset (log ++ [Open fp mode kwargs true]) in
        (r, log' ++ [Close fp])
    | None =>
        (Failed (Raised LibraryError), log ++ [Open fp mode kwargs false])
    end.

(** [dest.write(img)] and [dest.write(img, indexes)] on the dataset opened
    at [fp]. *)
Definition write (fp : target) (img : Image) (indexes : option pyobj)
    : Cmd unit :=
  fun log =>
    (if dataset_write W fp img indexes then Done tt
     else Failed (Raised LibraryError),
     log ++ [Write fp img indexes]).

(** [gdf.to_file(path, driver=driver)]. *)
Definition gdf_to_file (gdf : GeoDataFrame) (path driver : string) : Cmd unit :=
  fun log =>
    (if to_file W gdf path driver then Done tt
     else Failed (Raised LibraryError),
     log ++ [ToFile path driver]).

(** [d[key]]. *)
Definition getitem (d : gmap string pyobj) (key : string) : Cmd pyobj :=
  match d !! key with
  | Some v => mret v
  | None => fail (Raised KeyError)
  end.

(** Reading a local variable that is bound on some paths only. *)
Definition read_local {A} (name : string) (v : option A) : Cmd A :=
  match v with
  | Some a => mret a
  | None => fail (UnboundLocalError name)
  end.

Definition clip_raster_cli (input_raster geometries output_raster : string)
    : Cmd unit :=
  echo "Progress: 10%";;
  geodataframe ← gpd_read_file geometries;
  echo "Progress: 40%";;
  '(out_image, out_meta) ←
    with_open (Path input_raster) "r" ∅
      (fun raster => of_result (clip_raster W raster geodataframe));
  echo "Progress: 70%";;
  with_open (Path output_raster) "w" out_meta
    (fun dest => write (Path output_raster) out_image None);;
  echo "Progress: 100%";;
  echo ("Clipping completed, output raster written to " +:+ output_raster
        +:+ ".").

Definition reproject_raster_cli (input_raster output_raster : string)
    (target_crs : Z) (resampling_method : ResamplingMethods) : Cmd unit :=
  method ← match RESAMPLING_MAPPING !! value resampling_method with
           | Some method => mret method
           | None => fail (Raised KeyError)
           end;
  '(out_image, out_meta) ←
    with_open (Path input_raster) "r" ∅
      (fun raster =>
         of_result (reproject_raster W raster target_crs method));
  with_open (Path output_raster) "w" out_meta
    (fun dest => write (Path output_raster) out_image None);;
  echo "Reprojecting completed";;
  echo ("Writing raster to " +:+ output_raster +:+ ".").

Definition snap_raster_cli (input_raster snap_raster output_raster : string)
    : Cmd unit :=
  '(out_image, out_meta) ←
    with_open (Path input_raster) "r" ∅
      (fun src =>
         with_open (Path snap_raster) "r" ∅
           (fun snap_src => of_result (snap_with_raster W src snap_src)));
  with_open (Path output_raster) "w" out_meta
    (fun dst => write (Path output_raster) out_image None);;
  echo "Snapping completed";;
  echo ("Writing raster to " +:+ output_raster).

Definition extract_window_cli (input_raster output_raster : string)
    (center_coords : Q * Q) (height width : Z) : Cmd unit :=
  '(out_image, out_meta) ←
    with_open (Path input_raster) "r" ∅
      (fun raster =>
         of_result (extract_window W raster center_coords height width));
  with_open (Path output_raster) "w" out_meta
    (fun dst => write (Path output_raster) out_image None);;
  echo "Windowing completed";;
  echo ("Writing raster to " +:+ output_raster).

(** "NOT IMPLEMENTED YET": the body is [pass]. *)
Definition unify_rasters_cli (base_raster : string)
    (rasters_to_unify : list string) (output_raster : string)
    (resampling_method : ResamplingMethods) (same_extent : bool) : Cmd unit :=
  mret tt.

Definition rasterize_cli (input_vector output_raster : string)
    (resolution : option Q) (value_column : option string)
    (default_value fill_value : Q)
    (base_raster_profile_raster : option string) (buffer_value : option Q)
    (merge_strategy : MergeStrategy) : Cmd unit :=
  geodataframe ← gpd_read_file input_vector;
  base_raster_profile ←
    match base_raster_profile_raster with
    | Some path =>
        p ← with_open (Path path) "r" ∅ (fun raster => mret (profile W raster));
        mret (Some p)
    | None => mret None
    end;
  base_profile ← read_local "base_raster_profile" base_raster_profile;
  '(out_image, out_meta) ←
    of_result
      (rasterize_vector W geodataframe resolution value_column default_value
         fill_value base_profile buffer_value merge_strategy);
  dtype ← match base_raster_profile_raster with
          | Some _ =>
              p ← read_local "base_raster_profile" base_raster_profile;
              getitem p "dtype"
          | None => mret PFloatClass
          end;
  let out_meta := <["dtype" := dtype]> (<["count" := PInt 1]> out_meta) in
  with_open (Path output_raster) "w" out_meta
    (fun dst => write (Path output_raster) out_image None);;
  echo "Rasterizing completed";;
  echo ("Writing raster to " +:+ output_raster).

Definition reproject_vector_cli (input_vector output_vector : string)
    (target_crs : Z) : Cmd unit :=
  geodataframe ← gpd_read_file input_vector;
  reprojected_geodataframe ←
    of_result (reproject_vector W geodataframe target_crs);
  gdf_to_file reprojected_geodataframe output_vector "GeoJSON";;
  echo "Reprojecting completed";;
  echo ("Writing vector to " +:+ output_vector).

Definition kriging_interpolation_cli (input_vector output_raster : string)
    (target_column : string) (pixel_size_x pixel_size_y : Q)
    (extent : option (Q * Q * Q * Q)) (variogram_model : VariogramModel)
    (method : KrigingMethod) (drift_terms : list string) : Cmd unit :=
  geodataframe ← gpd_read_file input_vector;
  '(out_image, out_meta) ←
    of_result
      (kriging W geodataframe target_column (pixel_size_x, pixel_size_y)
         extent variogram_model method drift_terms);
  let out_meta :=
    <["dtype" := PStr "float32"]>
      (<["driver" := PStr "GTiff"]> (<["count" := PInt 1]> out_meta)) in
  with_open (Pixels out_image) "w" out_meta
    (fun dst => write (Pixels out_image) out_image None);;
  echo "Kriging interpolation completed";;
  echo ("Writing raster to " +:+ output_raster).

Definition distance_computation_cli
    (input_raster geometries output_raster : string) : Cmd unit :=
  profile ← with_open (Path input_raster) "r" ∅
              (fun raster => mret (profile W raster));
  geodataframe ← gpd_read_file geometries;
  out_image ← of_result (distance_computation W profile geodataframe);
  with_open (Path output_raster) "w" profile
    (fun dst =>
       count ← getitem profile "count";
       write (Path output_raster) out_image (Some count));;
  echo "Distance computation completed";;
  echo ("Writing raster to " +:+ output_raster).

(** "Not implemented yet": the body is [pass]. *)
Definition descriptive_statistics_cli (input_file column : string) : Cmd unit :=
  mret tt.

End Commands.

(** The files a log leaves open, innermost first, given those open before
    it; nothing when the log closes a file that is not the innermost open
    one. *)
Fixpoint still_open (log : list event) (opened : list target)
    : option (list target) :=
  match log with
  | [] => Some opened
  | Open fp _ _ true :: log' => still_open log' (fp :: opened)
  | Close fp :: log' =>
      match opened with
      | fp' :: opened' =>
          if bool_decide (fp = fp') then still_open log' opened' else None
      | [] => None
      end
  | _ :: log' => still_open log' opened
  end.

(** The targets a log opens for writing, or tries to. *)
Definition opened_for_writing (log : list event) : list target :=
  omap (fun ev =>
          match ev with
          | Open fp "w" _ _ => Some fp
          | _ => None
          end) log.

(** A world in which every call succeeds, to run the commands. *)
Definition fair_world : World :=
  mkWorld (fun _ => Some 1%nat) (fun _ _ _ => Some 2%nat) (fun _ _ _ => true)
    (fun _ => {[ "count" := PInt 1; "dtype" := PStr "uint8" ]})
    (fun _ _ _ => true)
    (fun _ _ => Ok (3%nat, ∅)) (fun _ _ _ => Ok (3%nat, ∅))
    (fun _ _ => Ok (3%nat, ∅)) (fun _ _ _ _ => Ok (3%nat, ∅))
    (fun _ _ _ _ _ _ _ _ => Ok (3%nat, ∅)) (fun _ _ => Ok 4%nat)
    (fun _ _ _ _ _ _ _ => Ok (3%nat, ∅)) (fun _ _ => Ok 3%nat).

(** A world in which the files open and the toolkit's functions raise. *)
Definition failing_world : World :=
  mkWorld (fun _ => Some 1%nat) (fun _ _ _ => Some 2%nat) (fun _ _ _ => true)
    (fun _ => ∅) (fun _ _ _ => true)
    (fun _ _ => Raise InvalidParameterValueException)
    (fun _ _ _ => Raise InvalidParameterValueException)
    (fun _ _ => Raise InvalidParameterValueException)
    (fun _ _ _ _ => Raise InvalidParameterValueException)
    (fun _ _ _ _ _ _ _ _ => Raise InvalidParameterValueException)
    (fun _ _ => Raise InvalidParameterValueException)
    (fun _ _ _ _ _ _ _ => Raise InvalidParameterValueException)
    (fun _ _ => Raise InvalidParameterValueException).

End Cli.

(** ** Commands that close what they open *)

Module CliFiles.
Import Cli.

(** A stretch of log that leaves the open files as it found them. *)
Definition balanced (events : list event) : Prop :=
  forall opened, still_open events opened = Some opened.

(** A command that only appends to the log, and appends a balanced
    stretch. *)
Definition tidy {A} (c : Cmd A) : Prop :=
  forall log, exists events, snd (c log) = log ++ events /\ balanced events.

End CliFiles.

(** * Properties *)

(** ** Raster resampling *)

Section ResamplingSpec.
Import Resampling.
Local Open Scope Q_scope.

(** Case analysis on the zero tests of [py_truediv]. *)
Ltac case_zero_test :=
  match goal with
  | |- context [Z.eqb ?x 0] => destruct (Z.eqb_spec x 0)
  end.

Lemma check_numeric_value_sign_spec (x : Q) :
  check_numeric_value_sign x = true <-> 0 < x.
Proof.
  unfold check_numeric_value_sign. rewrite negb_true_iff.
  destruct (Qle_bool x 0) eqn:Hle.
  - apply Qle_bool_iff in Hle. split; [discriminate|].
    intros Hlt. exfalso. exact (Qlt_not_le _ _ Hlt Hle).
  - split; [intros _|reflexivity].
    apply Qnot_le_lt. intros Hle'. apply Qle_bool_iff in Hle'. congruence.
Qed.

(** What a returning call of [_resample] has done: one read, of the requested
    shape, and the metadata rebuilt from the shape of what was read. *)
Lemma _resample_inv raster m sx sy log img mt log' :
  _resample raster m sx sy log = (Ok (img, mt), log') ->
  let shp := requested_shape raster sx sy in
  exists px,
    pixels raster shp m = Some px /\
    img = mkArray shp px /\
    snd shp <> 0%Z /\ snd (fst shp) <> 0%Z /\
    mt = meta_update (meta raster)
           (affine_mul (transform (meta raster))
              (affine_scale (inject_Z (width (meta raster)) / inject_Z (snd shp))
                            (inject_Z (height (meta raster)) / inject_Z (snd (fst shp)))))
           (snd shp) (snd (fst shp)) 0 /\
    log' = log ++ [Read shp m].
Proof.
  unfold _resample, requested_shape, mbind, st_mbind, st_bind, read, lift,
    py_truediv, mret, st_mret, st_ret, shape_last, shape_last2.
  destruct sy as [y|]; simpl;
    (destruct (pixels raster _ m) as [px|] eqn:Hpx; simpl; [|discriminate]);
    repeat case_zero_test; try discriminate;
    intros [= <- <- <-]; exists px; repeat split; assumption.
Qed.

(** The converse: when the library delivers and neither output dimension is
    zero, [_resample] returns. *)
Lemma _resample_returns raster m sx sy log px :
  let shp := requested_shape raster sx sy in
  pixels raster shp m = Some px ->
  snd shp <> 0%Z -> snd (fst shp) <> 0%Z ->
  exists mt, _resample raster m sx sy log = (Ok (mkArray shp px, mt), log ++ [Read shp m]).
Proof.
  unfold _resample, requested_shape, mbind, st_mbind, st_bind, read, lift,
    py_truediv, mret, st_mret, st_ret, shape_last, shape_last2.
  destruct sy as [y|]; simpl; intros Hpx Hw Hh; rewrite Hpx; simpl;
    apply Z.eqb_neq in Hw, Hh; rewrite Hw, Hh; eexists; reflexivity.
Qed.

Lemma resample_positive raster sx sy m log :
  0 < sx ->
  resample raster sx sy m log = _resample raster m sx sy log.
Proof.
  intros Hpos%check_numeric_value_sign_spec. unfold resample. rewrite Hpos. simpl.
  unfold mbind, st_mbind, st_bind.
  destruct (_resample raster m sx sy log) as [[[img mt]|err] log']; reflexivity.
Qed.

Lemma py_round_whole (x : Q) (k : Z) : x == inject_Z k -> py_round x = k.
Proof.
  intros Hx. unfold py_round.
  pose proof (Qfloor_comp x (inject_Z k) Hx) as Hfl. rewrite Qfloor_Z in Hfl.
  rewrite Hfl.
  assert (Hlt : x - inject_Z k < 1 # 2).
  { assert (Hz : x - inject_Z k == 0) by (rewrite Hx; ring).
    rewrite Hz. reflexivity. }
  rewrite (proj1 (Qlt_alt _ _) Hlt). reflexivity.
Qed.

(** [py_round] is a nearest integer, and at a tie the even one. *)
Lemma py_round_nearest (x : Q) :
  Qabs (inject_Z (py_round x) - x) <= 1 # 2.
Proof.
  unfold py_round.
  pose proof (Qfloor_le x) as Hlo. pose proof (Qlt_floor x) as Hhi.
  rewrite inject_Z_plus in Hhi. change (inject_Z 1) with 1 in Hhi.
  set (fl := Qfloor x) in *. apply Qabs_Qle_condition.
  destruct (Qcompare (x - inject_Z fl) (1 # 2)) eqn:Hcmp.
  - apply Qeq_alt in Hcmp.
    destruct (Z.even fl);
      [|rewrite inject_Z_plus; change (inject_Z 1) with 1]; split; lra.
  - apply Qlt_alt in Hcmp. split; lra.
  - apply Qgt_alt in Hcmp.
    rewrite inject_Z_plus. change (inject_Z 1) with 1. split; lra.
Qed.

Example py_round_ties :
  map py_round [1 # 2; 3 # 2; 5 # 2; - (1 # 2); - (3 # 2)] =
  [0; 2; 2; 0; -2]%Z.
Proof. reflexivity. Qed.

(** The grid a returning call delivers: the rows follow [upscale_factor] and
    the columns follow [upscale_factor_y]. *)
Lemma resample_shape raster sx sy m log img mt log' :
  0 < sx ->
  resample raster sx sy m log = (Ok (img, mt), log') ->
  shape_last img = py_round (inject_Z (width (meta raster)) * default sx sy) /\
  shape_last2 img = py_round (inject_Z (height (meta raster)) * sx).
Proof.
  intros Hpos Hrun. rewrite resample_positive in Hrun by assumption.
  apply _resample_inv in Hrun as (px & _ & -> & _). split; reflexivity.
Qed.

(** C1. The docstring of [resample] gives [upscale_factor] to the width and
    [upscale_factor_y] to the height, and the specification asks for a grid
    of width [round(width * s_x)] and height [round(height * s_y)].  On a
    raster of 10 columns and 20 rows with [s_x = 2] and [s_y = 3] the code
    returns a grid of 30 columns and 40 rows: the two factors are exchanged,
    and the 20 columns and 60 rows of the docstring are not what comes
    back. *)
Theorem resample_exchanges_scale_factors :
  exists img mt log',
    resample (grid 10 20) 2 (Some 3) bilinear [] = (Ok (img, mt), log') /\
    shape_last img = 30%Z /\ shape_last2 img = 40%Z /\
    shape_last img <> py_round (inject_Z (width (meta (grid 10 20))) * 2) /\
    shape_last2 img <> py_round (inject_Z (height (meta (grid 10 20))) * 3).
Proof.
  do 3 eexists. split; [vm_compute; reflexivity|].
  vm_compute. repeat split; discriminate.
Qed.

(** C2. A horizontal factor that is zero or negative makes [resample] raise
    [NumericValueSignException], and the log of raster reads is left as it
    was: nothing is read. *)
Theorem resample_nonpositive_raises raster sx sy m log :
  sx <= 0 ->
  resample raster sx sy m log = (Raise NumericValueSignException, log).
Proof.
  intros Hle. unfold resample.
  destruct (check_numeric_value_sign sx) eqn:Hchk; [|reflexivity].
  apply check_numeric_value_sign_spec in Hchk.
  exfalso. exact (Qlt_not_le _ _ Hchk Hle).
Qed.

Lemma resample_nonpositive_raises_witness :
  resample (grid 10 20) 0 None bilinear [] = (Raise NumericValueSignException, []) /\
  resample (grid 10 20) (-1) (Some 2) nearest [] = (Raise NumericValueSignException, []).
Proof.
  split.
  - apply (resample_nonpositive_raises (grid 10 20) 0 None bilinear []).
    vm_compute. discriminate.
  - apply (resample_nonpositive_raises (grid 10 20) (-1) (Some 2) nearest []).
    vm_compute. discriminate.
Defined.

(** On every path [_resample] has asked the library for one read. *)
Lemma _resample_log raster m sx sy log :
  snd (_resample raster m sx sy log) =
    log ++ [Read (requested_shape raster sx sy) m].
Proof.
  unfold _resample, requested_shape, mbind, st_mbind, st_bind, read, lift,
    py_truediv, mret, st_mret, st_ret, shape_last, shape_last2.
  destruct sy as [y|]; simpl;
    (destruct (pixels raster _ m) as [px|]; simpl; [|reflexivity]);
    repeat case_zero_test; reflexivity.
Qed.

(** C3. For a strictly positive factor, the metadata [resample] returns has
    the input transform scaled by old width over new width and old height
    over new height: the coefficients [a] and [d] are multiplied by the
    first ratio, [b] and [e] by the second, and the origin [c], [f] stays;
    its nodata value is 0 whatever the source had, and its width and height
    are those of the grid returned with it.  And a call that has read the
    raster returns, with the array read, whenever the library delivered the
    read and neither dimension of the array is zero. *)
Theorem resample_meta raster sx sy m log :
  0 < sx ->
  (forall img mt log',
     resample raster sx sy m log = (Ok (img, mt), log') ->
     a (transform mt) ==
       a (transform (meta raster)) *
         (inject_Z (width (meta raster)) / inject_Z (shape_last img)) /\
     b (transform mt) ==
       b (transform (meta raster)) *
         (inject_Z (height (meta raster)) / inject_Z (shape_last2 img)) /\
     c (transform mt) == c (transform (meta raster)) /\
     d (transform mt) ==
       d (transform (meta raster)) *
         (inject_Z (width (meta raster)) / inject_Z (shape_last img)) /\
     e (transform mt) ==
       e (transform (meta raster)) *
         (inject_Z (height (meta raster)) / inject_Z (shape_last2 img)) /\
     f (transform mt) == f (transform (meta raster)) /\
     nodata mt = Some 0 /\
     width mt = shape_last img /\
     height mt = shape_last2 img /\
     shape_last img <> 0%Z /\ shape_last2 img <> 0%Z) /\
  (forall out_shape px,
     snd (resample raster sx sy m log) = log ++ [Read out_shape m] ->
     pixels raster out_shape m = Some px ->
     snd out_shape <> 0%Z ->
     snd (fst out_shape) <> 0%Z ->
     exists mt,
       fst (resample raster sx sy m log) = Ok (mkArray out_shape px, mt)).
Proof.
  intros Hpos. split.
  - intros img mt log' Hrun. rewrite resample_positive in Hrun by assumption.
    apply _resample_inv in Hrun as (px & _ & -> & Hw & Hh & -> & _).
    unfold shape_last, shape_last2. simpl.
    repeat split; try assumption; ring.
  - intros out_shape px Hlog Hpx Hw Hh.
    rewrite resample_positive in * by assumption.
    pose proof (_resample_log raster m sx sy log) as Hsnd.
    rewrite Hsnd in Hlog. apply app_inv_head in Hlog. injection Hlog as <-.
    destruct (_resample_returns raster m sx sy log px Hpx Hw Hh) as [mt Hrun].
    exists mt. rewrite Hrun. reflexivity.
Qed.

Lemma resample_meta_witness :
  let raster :=
    mkReader
      (mkMeta "GTiff" "float32" (Some (-9999)) 10 20 1 "EPSG:3067"
         (mkAffine 2 1 100 3 (-2) 200))
      (fun _ _ => Some []) in
  exists mt,
    resample raster (1 # 2) None bilinear [] =
      (Ok (mkArray (1, 10, 5)%Z [], mt), [Read (1, 10, 5)%Z bilinear]) /\
    (a (transform mt) == 4 /\ b (transform mt) == 2 /\
     c (transform mt) == 100 /\ d (transform mt) == 6 /\
     e (transform mt) == -4 /\ f (transform mt) == 200) /\
    nodata mt = Some 0 /\ width mt = 5%Z /\ height mt = 10%Z.
Proof.
  intros raster.
  destruct (resample_meta raster (1 # 2) None bilinear []) as [Hinv Hret].
  { reflexivity. }
  destruct (Hret (1, 10, 5)%Z []) as [mt Hfst].
  { reflexivity. }
  { reflexivity. }
  { vm_compute. discriminate. }
  { vm_compute. discriminate. }
  assert (Hrun : resample raster (1 # 2) None bilinear [] =
                 (Ok (mkArray (1, 10, 5)%Z [], mt), [Read (1, 10, 5)%Z bilinear])).
  { rewrite (surjective_pairing (resample raster (1 # 2) None bilinear [])).
    rewrite Hfst. reflexivity. }
  exists mt. split; [exact Hrun|].
  destruct (Hinv _ _ _ Hrun)
    as (Ha & Hb & Hc & Hd & He & Hf & Hnd & Hw & Hh & _).
  split; [|repeat split; assumption].
  rewrite Ha, Hb, Hc, Hd, He, Hf. repeat split; reflexivity.
Defined.

(** The pixel sizes of the transform a returning call delivers. *)
Lemma resample_pixel_size raster sx sy m log img mt log' :
  0 < sx ->
  resample raster sx sy m log = (Ok (img, mt), log') ->
  pixel_size_x (transform mt) ==
    pixel_size_x (transform (meta raster)) *
      (inject_Z (width (meta raster)) / inject_Z (width mt)) /\
  pixel_size_y (transform mt) ==
    pixel_size_y (transform (meta raster)) *
      (inject_Z (height (meta raster)) / inject_Z (height mt)).
Proof.
  intros Hpos Hrun. rewrite resample_positive in Hrun by assumption.
  apply _resample_inv in Hrun as (px & _ & _ & _ & _ & -> & _).
  unfold pixel_size_x, pixel_size_y. simpl. split; ring.
Qed.

(** C4, as stated, fails: on a raster of 3 columns and 3 rows with unit
    pixels and the factor 1/2 for both axes, the grid returned has
    [round(1.5) = 2] columns, so the pixel size becomes 3/2, not
    1 / (1/2) = 2. *)
Lemma resample_pixel_size_not_divided :
  ~ (forall raster s m log img mt log',
       0 < s ->
       resample raster s None m log = (Ok (img, mt), log') ->
       pixel_size_x (transform mt) == pixel_size_x (transform (meta raster)) / s).
Proof.
  intros Hall.
  specialize (Hall (grid 3 3) (1 # 2) bilinear [] _ _ _ eq_refl eq_refl).
  vm_compute in Hall. discriminate.
Qed.

(** C4, amended.  For a strictly positive factor [s] used for both axes, the
    pixel size of the output transform is the input pixel size times old
    width over new width (old height over new height for the vertical one);
    it is the input pixel size divided by [s] when [width * s] and
    [height * s] are whole numbers. *)
Theorem resample_pixel_size_whole raster s m log img mt log' :
  0 < s ->
  resample raster s None m log = (Ok (img, mt), log') ->
  (pixel_size_x (transform mt) ==
     pixel_size_x (transform (meta raster)) *
       (inject_Z (width (meta raster)) / inject_Z (width mt)) /\
   pixel_size_y (transform mt) ==
     pixel_size_y (transform (meta raster)) *
       (inject_Z (height (meta raster)) / inject_Z (height mt))) /\
  (forall kw kh : Z,
     inject_Z (width (meta raster)) * s == inject_Z kw ->
     inject_Z (height (meta raster)) * s == inject_Z kh ->
     pixel_size_x (transform mt) == pixel_size_x (transform (meta raster)) / s /\
     pixel_size_y (transform mt) == pixel_size_y (transform (meta raster)) / s).
Proof.
  intros Hpos Hrun. split; [eapply resample_pixel_size; eassumption|].
  intros kw kh Hkw Hkh.
  rewrite resample_positive in Hrun by assumption.
  apply _resample_inv in Hrun as (px & _ & _ & Hw & Hh & -> & _).
  unfold pixel_size_x, pixel_size_y. simpl in *.
  rewrite (py_round_whole _ _ Hkw) in *.
  rewrite (py_round_whole _ _ Hkh) in *.
  assert (Hs : ~ s == 0) by (intros Hs0; rewrite Hs0 in Hpos; discriminate).
  assert (Hkw0 : ~ inject_Z kw == 0).
  { intros H0. apply Hw. unfold Qeq in H0. simpl in H0. lia. }
  assert (Hkh0 : ~ inject_Z kh == 0).
  { intros H0. apply Hh. unfold Qeq in H0. simpl in H0. lia. }
  assert (Hwq : inject_Z (width (meta raster)) == inject_Z kw / s).
  { rewrite <- Hkw. field. assumption. }
  assert (Hhq : inject_Z (height (meta raster)) == inject_Z kh / s).
  { rewrite <- Hkh. field. assumption. }
  rewrite Hwq, Hhq. split; field; split; assumption.
Qed.

Lemma resample_pixel_size_whole_witness :
  exists img mt log',
    resample (grid 10 20) (1 # 2) None bilinear [] = (Ok (img, mt), log') /\
    pixel_size_x (transform mt) ==
      pixel_size_x (transform (meta (grid 10 20))) / (1 # 2) /\
    pixel_size_y (transform mt) ==
      pixel_size_y (transform (meta (grid 10 20))) / (1 # 2).
Proof.
  do 3 eexists. split; [vm_compute; reflexivity|].
  refine (proj2 (resample_pixel_size_whole (grid 10 20) (1 # 2) bilinear []
                   _ _ _ _ _) 5%Z 10%Z _ _); reflexivity.
Defined.

(** C9. Leaving the vertical factor out gives the very result, image,
    metadata and reads, of passing the horizontal factor for it; this holds
    for every factor, the strictly positive ones among them. *)
Theorem resample_default_vertical raster s m log :
  resample raster s None m log = resample raster s (Some s) m log.
Proof.
  unfold resample. destruct (negb (check_numeric_value_sign s)); reflexivity.
Qed.

End ResamplingSpec.

(** ** Pairwise logratio *)

Section PairwiseSpec.
Import Pairwise.

(** C8. Whenever one of the two operands is zero, the first, the second or
    both, [single_pairwise_logratio] raises
    [InvalidParameterValueException]. *)
Theorem single_pairwise_logratio_zero (numerator denominator : Q) :
  (numerator == 0 \/ denominator == 0)%Q ->
  single_pairwise_logratio numerator denominator =
    Raise InvalidParameterValueException.
Proof.
  intros Hzero. unfold single_pairwise_logratio.
  destruct Hzero as [Hz|Hz]; apply Qeq_bool_iff in Hz; rewrite Hz;
    [|rewrite orb_true_r]; reflexivity.
Qed.

Lemma single_pairwise_logratio_zero_witness :
  single_pairwise_logratio 0 1 = Raise InvalidParameterValueException /\
  single_pairwise_logratio 1 0 = Raise InvalidParameterValueException /\
  single_pairwise_logratio 0 0 = Raise InvalidParameterValueException.
Proof.
  split; [|split].
  - apply (single_pairwise_logratio_zero 0 1). left. reflexivity.
  - apply (single_pairwise_logratio_zero 1 0). right. reflexivity.
  - apply (single_pairwise_logratio_zero 0 0). left. reflexivity.
Defined.

(** Two equal operands that are not zero give the neutral value, as the
    first assertion of the tests has it. *)
Lemma single_pairwise_logratio_equal (x : Q) :
  ~ (x == 0)%Q -> single_pairwise_logratio x x = Ok 0%R.
Proof.
  intros Hx. unfold single_pairwise_logratio.
  destruct (Qeq_bool x 0) eqn:Hb; [apply Qeq_bool_iff in Hb; contradiction|].
  simpl. f_equal. unfold Rdiv. rewrite Rinv_r; [apply ln_1|].
  intros H0. apply Hx. apply eqR_Qeq. rewrite H0. symmetry. apply RMicromega.Q2R_0.
Qed.

End PairwiseSpec.

(** ** Statistical tests *)

Section StatisticalTestsSpec.
Import Pandas StatisticalTests.

(** C7. On an empty table, [correlation_matrix] and [covariance_matrix] both
    raise [EmptyDataFrameException] and leave the log of calls as it was: no
    column check has run and no matrix has been computed. *)
Theorem correlation_covariance_empty (E : Externals) (data : DataFrame cell)
    (method : correlation_method) (min_periods : option Z) (ddof : Z)
    (log : list event) :
  empty data = true ->
  correlation_matrix E data method min_periods log =
    (Raise EmptyDataFrameException, log) /\
  covariance_matrix E data min_periods ddof log =
    (Raise EmptyDataFrameException, log).
Proof.
  intros Hempty. unfold correlation_matrix, covariance_matrix,
    check_empty_dataframe. rewrite Hempty. split; reflexivity.
Qed.

Lemma correlation_covariance_empty_witness :
  correlation_matrix plain_externals (mkFrame [] []) pearson None [] =
    (Raise EmptyDataFrameException, []) /\
  covariance_matrix plain_externals (mkFrame [] []) None 1 [] =
    (Raise EmptyDataFrameException, []).
Proof.
  apply (correlation_covariance_empty plain_externals (mkFrame [] [])
           pearson None 1 []).
  reflexivity.
Defined.

Lemma getitem_elem {C} (df : DataFrame C) (l : scalar) (s : list C) :
  getitem df l = Ok s -> (l, s) ∈ df_columns df.
Proof.
  unfold getitem.
  destruct (List.find _ (df_columns df)) as [[l' s']|] eqn:Hfind; [|discriminate].
  intros [= <-]. apply find_some in Hfind as [Hin Heq].
  apply bool_decide_eq_true in Heq. simpl in Heq. subst l'.
  apply list_elem_of_In. exact Hin.
Qed.

Lemma getitem_found {C} (df : DataFrame C) (l : scalar) :
  l ∈ labels df -> exists s, getitem df l = Ok s.
Proof.
  unfold labels, getitem. intros Hin.
  destruct (List.find _ (df_columns df)) as [[l' s']|] eqn:Hfind; [eauto|].
  exfalso. apply list_elem_of_fmap in Hin as ([l' s'] & -> & Hcol).
  apply list_elem_of_In in Hcol.
  pose proof (find_none _ _ Hfind _ Hcol) as Hno. simpl in Hno.
  apply bool_decide_eq_false in Hno. congruence.
Qed.

Section Loop.
Variable E : Externals.

(** The loop raises the sample-size error on the first column it meets that
    holds more than 5000 cells, and on none otherwise. *)
Lemma test_columns_small (data : DataFrame cell) (columns : list scalar) :
  Forall (fun col => (Z.of_nat (length (snd col)) <= 5000)%Z) (df_columns data) ->
  forall statistics log,
    fst (test_columns E data columns statistics log) <>
      Raise SampleSizeExceededException.
Proof.
  intros Hsmall. induction columns as [|column columns IH]; intros stats log.
  - discriminate.
  - simpl. unfold mbind, st_mbind, st_bind, lift.
    destruct (getitem data column) as [sample|err] eqn:Hget.
    + apply getitem_elem in Hget.
      rewrite Forall_forall in Hsmall. specialize (Hsmall _ Hget). simpl in Hsmall.
      destruct (Z.ltb_spec 5000 (Z.of_nat (length sample))); [lia|].
      unfold call_shapiro. destruct (shapiro E sample); [apply IH|discriminate].
    + unfold getitem in Hget.
      destruct (List.find _ (df_columns data)); [discriminate|].
      injection Hget as <-. discriminate.
Qed.

Lemma test_columns_large (data : DataFrame cell) (column : scalar)
    (columns : list scalar) statistics log :
  Forall (fun col => (5000 < Z.of_nat (length (snd col)))%Z) (df_columns data) ->
  column ∈ labels data ->
  test_columns E data (column :: columns) statistics log =
    (Raise SampleSizeExceededException, log).
Proof.
  intros Hlarge Hin. simpl. unfold mbind, st_mbind, st_bind, lift.
  destruct (getitem_found data column Hin) as [sample Hget]. rewrite Hget.
  apply getitem_elem in Hget.
  rewrite Forall_forall in Hlarge. specialize (Hlarge _ Hget). simpl in Hlarge.
  destruct (Z.ltb_spec 5000 (Z.of_nat (length sample))); [reflexivity|lia].
Qed.

End Loop.

Lemma bind_ret_raises {S A B} (m : ST S A) (g : A -> B) (s : S) (err : exn) :
  fst ((x ← m; mret (g x)) s) = Raise err <-> fst (m s) = Raise err.
Proof.
  unfold mbind, st_mbind, st_bind, mret, st_mret, st_ret.
  destruct (m s) as [[x|err'] s']; simpl; split; congruence.
Qed.

Lemma filter_mask_length {A B} (mask : list bool) (l : list A) (k : list B) :
  length l = length k ->
  length (filter_mask mask l) = length (filter_mask mask k).
Proof.
  revert l k. induction mask as [|keep mask IH]; intros [|x l] [|y k] Hlen;
    simpl in *; try reflexivity; try discriminate.
  injection Hlen as Hlen. destruct keep; simpl; auto.
Qed.

Lemma dropna_lengths {C} (isna : C -> bool) (df : DataFrame C) :
  well_formed df ->
  Forall (fun col => length (snd col) = nrows (dropna isna df))
    (df_columns (dropna isna df)).
Proof.
  unfold well_formed, dropna, nrows. simpl. intros Hwf.
  apply Forall_fmap. eapply Forall_impl; [exact Hwf|].
  intros [l s] Hlen. simpl in *. apply filter_mask_length. exact Hlen.
Qed.

Lemma labels_dropna {C} (isna : C -> bool) (df : DataFrame C) :
  labels (dropna isna df) = labels df.
Proof.
  unfold labels, dropna. simpl. rewrite <- list_fmap_compose.
  apply list_fmap_ext. intros i [l s] _. reflexivity.
Qed.

Lemma getitems_well_formed {C} (df selected : DataFrame C) (ls : list scalar) :
  well_formed df -> getitems df ls = Ok selected -> well_formed selected.
Proof.
  unfold well_formed, getitems. intros Hwf.
  destruct (forallb _ ls); [|discriminate]. intros [= <-]. simpl.
  apply Forall_forall. intros col Hin.
  apply list_elem_of_In, in_flat_map in Hin as (l0 & _ & Hin).
  apply filter_In in Hin as [Hin _]. apply list_elem_of_In in Hin.
  rewrite Forall_forall in Hwf. exact (Hwf _ Hin).
Qed.

Lemma getitems_label {C} (df selected : DataFrame C) (l : scalar)
    (ls : list scalar) :
  getitems df (l :: ls) = Ok selected -> l ∈ labels selected.
Proof.
  unfold getitems. destruct (forallb _ (l :: ls)) eqn:Hall; [|discriminate].
  intros [= <-]. simpl in Hall. apply andb_true_iff in Hall as [Hl _].
  apply bool_decide_eq_true in Hl.
  unfold labels in *. simpl.
  apply list_elem_of_fmap in Hl as ([l' s] & -> & Hcol).
  apply list_elem_of_fmap. exists (l', s). split; [reflexivity|].
  apply elem_of_app. left. apply list_elem_of_In, filter_In.
  split; [apply list_elem_of_In; exact Hcol|].
  apply bool_decide_eq_true. reflexivity.
Qed.

Lemma nonempty_labels {C} (df : DataFrame C) :
  empty df = false -> exists l ls, labels df = l :: ls.
Proof.
  unfold empty, labels.
  destruct (df_index df) as [|i idx]; [discriminate|].
  destruct (df_columns df) as [|[l0 s0] cols]; [discriminate|]. simpl. eauto.
Qed.

(** The sample-size check of the table branch, on a table all of whose
    columns hold [n] cells. *)
Lemma test_columns_sample_size (E : Externals) (data : DataFrame cell)
    (column : scalar) (columns : list scalar) (n : nat) statistics log :
  Forall (fun col => length (snd col) = n) (df_columns data) ->
  column ∈ labels data ->
  fst (test_columns E data (column :: columns) statistics log) =
    Raise SampleSizeExceededException <->
  (5000 < Z.of_nat n)%Z.
Proof.
  intros Hlen Hin. split.
  - intros Hraise. destruct (Z.lt_ge_cases 5000 (Z.of_nat n)) as [|Hle]; [assumption|].
    exfalso. revert Hraise. apply test_columns_small.
    eapply Forall_impl; [exact Hlen|]. intros col ->. lia.
  - intros Hlt. rewrite test_columns_large; [reflexivity| |assumption].
    eapply Forall_impl; [exact Hlen|]. intros col ->. exact Hlt.
Qed.

(** The checks that come before the sample-size check decide first: a table
    of 5001 rows whose selected column does not exist is turned away with
    [InvalidColumnException]. *)
Lemma normality_test_sample_size_preempted :
  ~ (forall (E : Externals) (df : DataFrame cell) columns log,
       (5000 < Z.of_nat (nrows df))%Z ->
       fst (normality_test E (Frame df) columns log) =
         Raise SampleSizeExceededException).
Proof.
  intros Hall.
  specialize (Hall plain_externals (column_of "a" (Z.to_nat 5001))
                (Some ["b"%string]) []).
  assert (Hrun : fst (normality_test plain_externals
                        (Frame (column_of "a" (Z.to_nat 5001)))
                        (Some ["b"%string]) []) = Raise InvalidColumnException)
    by (vm_compute; reflexivity).
  rewrite Hrun in Hall.
  assert (Hrows : (5000 < Z.of_nat (nrows (column_of "a" (Z.to_nat 5001))))%Z)
    by (vm_compute; reflexivity).
  specialize (Hall Hrows). discriminate.
Qed.

(** X29. A table that passes the earlier checks (not empty, the selected
    columns present, the tested columns numeric) and has a column to test is
    turned away with [SampleSizeExceededException] exactly when its number
    of rows exceeds 5000, the rows being counted after those with a missing
    value in a selected column are dropped when columns are selected; an
    array of one axis that is not empty is turned away with it exactly when
    its length exceeds 5000. *)
Theorem normality_test_sample_size (E : Externals) :
  (forall (df : DataFrame cell) log,
     empty df = false -> well_formed df ->
     check_columns_numeric E df (labels df) = true ->
     fst (normality_test E (Frame df) None log) =
       Raise SampleSizeExceededException <->
     (5000 < Z.of_nat (nrows df))%Z) /\
  (forall (df selected : DataFrame cell) column columns log,
     empty df = false -> well_formed df ->
     check_columns_valid df (column :: columns) = true ->
     check_columns_numeric E df (map SStr (column :: columns)) = true ->
     getitems df (map SStr (column :: columns)) = Ok selected ->
     fst (normality_test E (Frame df) (Some (column :: columns)) log) =
       Raise SampleSizeExceededException <->
     (5000 < Z.of_nat (nrows (dropna isna selected)))%Z) /\
  (forall (n : nat) (elems : list cell) columns log,
     n <> 0%nat ->
     fst (normality_test E (Array (mkNdarray [n] elems)) columns log) =
       Raise SampleSizeExceededException <->
     (5000 < Z.of_nat n)%Z).
Proof.
  split; [|split].
  - intros df log Hne Hwf Hnum.
    destruct (nonempty_labels df Hne) as (l & ls & Hlabels).
    unfold normality_test, check_empty_dataframe. rewrite Hne.
    unfold mbind at 1, st_mbind, st_bind, call_check_columns_numeric.
    rewrite Hnum. cbn [negb].
    rewrite bind_ret_raises, Hlabels.
    apply test_columns_sample_size; [exact Hwf|].
    rewrite Hlabels. apply list_elem_of_here.
  - intros df selected column columns log Hne Hwf Hvalid Hnum Hsel.
    unfold normality_test, check_empty_dataframe. rewrite Hne, Hvalid.
    cbn [negb].
    unfold mbind at 1, st_mbind, st_bind, call_check_columns_numeric.
    rewrite Hnum. cbn [negb].
    unfold mbind at 1, st_mbind, st_bind, lift. rewrite Hsel.
    rewrite bind_ret_raises. simpl map.
    apply test_columns_sample_size.
    + apply dropna_lengths. eapply getitems_well_formed; eassumption.
    + rewrite labels_dropna. eapply getitems_label. exact Hsel.
  - intros n elems columns log Hn.
    unfold normality_test, size, len, lift. cbn [nd_shape nd_elems foldr].
    unfold mbind at 1, st_mbind, st_bind.
    destruct (Nat.eqb_spec (n * 1) 0); [lia|].
    destruct (Z.ltb_spec 5000 (Z.of_nat n)) as [Hlt|Hle].
    + split; [intros _; exact Hlt|reflexivity].
    + split; [|lia].
      destruct (forallb is_number elems); simpl; [|discriminate].
      unfold mbind, st_mbind, st_bind, call_shapiro.
      destruct (shapiro E _); discriminate.
Qed.

Lemma normality_test_sample_size_witness :
  let big := column_of "a" (Z.to_nat 5001) in
  let full := column_of "a" (Z.to_nat 5000) in
  let gappy :=
    mkFrame (range_index (Z.to_nat 5001))
      [(SStr "a", NaN :: replicate (Z.to_nat 5000) (Num 1))] in
  (fst (normality_test plain_externals (Frame big) None []) =
     Raise SampleSizeExceededException /\
   fst (normality_test plain_externals (Frame full) None []) <>
     Raise SampleSizeExceededException) /\
  (fst (normality_test plain_externals (Frame big) (Some ["a"%string]) []) =
     Raise SampleSizeExceededException /\
   fst (normality_test plain_externals (Frame full) (Some ["a"%string]) []) <>
     Raise SampleSizeExceededException /\
   fst (normality_test plain_externals (Frame gappy) (Some ["a"%string]) []) <>
     Raise SampleSizeExceededException) /\
  (fst (normality_test plain_externals
          (Array (mkNdarray [Z.to_nat 5001] (replicate (Z.to_nat 5001) (Num 1))))
          None []) =
     Raise SampleSizeExceededException /\
   fst (normality_test plain_externals
          (Array (mkNdarray [Z.to_nat 5000] (replicate (Z.to_nat 5000) (Num 1))))
          None []) <>
     Raise SampleSizeExceededException).
Proof.
  intros big full gappy.
  destruct (normality_test_sample_size plain_externals) as (Hall & Hsel & Harr).
  assert (Hbig : well_formed big).
  { apply Forall_cons_2; [vm_compute; reflexivity|constructor]. }
  assert (Hfull : well_formed full).
  { apply Forall_cons_2; [vm_compute; reflexivity|constructor]. }
  assert (Hne_big : empty big = false) by (vm_compute; reflexivity).
  assert (Hne_full : empty full = false) by (vm_compute; reflexivity).
  assert (Hval_big : check_columns_valid big ["a"%string] = true)
    by (vm_compute; reflexivity).
  assert (Hval_full : check_columns_valid full ["a"%string] = true)
    by (vm_compute; reflexivity).
  assert (Hsel_big : getitems big (map SStr ["a"%string]) = Ok big)
    by (vm_compute; reflexivity).
  assert (Hsel_full : getitems full (map SStr ["a"%string]) = Ok full)
    by (vm_compute; reflexivity).
  assert (Hgappy : well_formed gappy).
  { apply Forall_cons_2; [vm_compute; reflexivity|constructor]. }
  assert (Hne_gappy : empty gappy = false) by (vm_compute; reflexivity).
  assert (Hval_gappy : check_columns_valid gappy ["a"%string] = true)
    by (vm_compute; reflexivity).
  assert (Hsel_gappy : getitems gappy (map SStr ["a"%string]) = Ok gappy)
    by (vm_compute; reflexivity).
  split; [|split]; [split|split; [|split]|split].
  - apply (proj2 (Hall big [] Hne_big Hbig eq_refl)).
    vm_compute. reflexivity.
  - intros Hraise.
    apply (proj1 (Hall full [] Hne_full Hfull eq_refl)) in Hraise.
    vm_compute in Hraise. discriminate.
  - apply (proj2 (Hsel big big "a"%string [] [] Hne_big Hbig Hval_big eq_refl
                    Hsel_big)).
    vm_compute. reflexivity.
  - intros Hraise.
    apply (proj1 (Hsel full full "a"%string [] [] Hne_full Hfull Hval_full
                    eq_refl Hsel_full)) in Hraise.
    vm_compute in Hraise. discriminate.
  - intros Hraise.
    apply (proj1 (Hsel gappy gappy "a"%string [] [] Hne_gappy Hgappy
                    Hval_gappy eq_refl Hsel_gappy)) in Hraise.
    vm_compute in Hraise. discriminate.
  - assert (Hn : Z.to_nat 5001 <> 0%nat) by (vm_compute; discriminate).
    apply (proj2 (Harr (Z.to_nat 5001) (replicate (Z.to_nat 5001) (Num 1))
                    None [] Hn)).
    vm_compute. reflexivity.
  - intros Hraise.
    assert (Hn : Z.to_nat 5000 <> 0%nat) by (vm_compute; discriminate).
    apply (proj1 (Harr (Z.to_nat 5000) (replicate (Z.to_nat 5000) (Num 1))
                    None [] Hn)) in Hraise.
    vm_compute in Hraise. discriminate.
Defined.

(** The array branch compares the length of the first axis, whatever the
    number of axes: an array of 2 rows of 2501 numbers each is let through
    to the statistic with its 5002 numbers. *)
Lemma normality_test_first_axis :
  normality_test plain_externals
    (Array (mkNdarray [2%nat; Z.to_nat 2501]
              (replicate (Z.to_nat 5002) (Num 1)))) None [] =
  (Ok (Whole (1, 1)%Q), [Shapiro (replicate (Z.to_nat 5002) (Num 1))]).
Proof. vm_compute. reflexivity. Qed.

(** C5. The docstring of [normality_test] promises
    [SampleSizeExceededException] when the "input data exceeds the maximum
    of 5000 samples", and on a table the code counts the cells of each
    tested column.  On an array it compares [len(data)], the length of the
    first axis: an array of 2 rows of 2501 numbers holds 5002 observations
    and is not turned away; all 5002 go to the statistic. *)
Theorem normality_test_array_size_unchecked (E : Externals)
    (columns : option (list string)) (log : list event) :
  let data :=
    mkNdarray [2%nat; Z.to_nat 2501] (replicate (Z.to_nat 5002) (Num 1)) in
  size data = Z.to_nat 5002 /\
  snd (normality_test E (Array data) columns log) =
    log ++ [Shapiro (replicate (Z.to_nat 5002) (Num 1))] /\
  fst (normality_test E (Array data) columns log) <>
    Raise SampleSizeExceededException.
Proof.
  intros data.
  assert (Hsize : size data = Z.to_nat 5002) by (vm_compute; reflexivity).
  assert (Hzero : (size data =? 0)%nat = false) by (vm_compute; reflexivity).
  assert (Hnum : forallb is_number (nd_elems data) = true)
    by (vm_compute; reflexivity).
  assert (Hkeep : List.filter (fun x => negb (isna x)) (nd_elems data) =
                  replicate (Z.to_nat 5002) (Num 1))
    by (vm_compute; reflexivity).
  split; [exact Hsize|].
  unfold normality_test. rewrite Hzero.
  unfold mbind at 1, st_mbind, st_bind, lift, len.
  change (nd_shape data) with [2%nat; Z.to_nat 2501].
  change (5000 <? Z.of_nat 2)%Z with false. cbv iota.
  rewrite Hnum. cbn [negb]. rewrite Hkeep.
  unfold mbind, st_mbind, st_bind, call_shapiro.
  destruct (shapiro E _); split; (reflexivity || discriminate).
Qed.

End StatisticalTestsSpec.

(** ** One-hot encoding *)

Section OneHotEncodingSpec.
Import Pandas OneHotEncoding.

Lemma bind_ok {S A B} (m : ST S A) (k : A -> ST S B) (s s' : S) (x : A) :
  m s = (Ok x, s') -> (m ≫= k) s = k x s'.
Proof. unfold mbind, st_mbind, st_bind. intros ->. reflexivity. Qed.

Lemma bind_raise {S A B} (m : ST S A) (k : A -> ST S B) (s s' : S) (err : exn) :
  m s = (Raise err, s') -> (m ≫= k) s = (Raise err, s').
Proof. unfold mbind, st_mbind, st_bind. intros ->. reflexivity. Qed.

Lemma load_some (store : gmap loc (DataFrame scalar)) l df :
  store !! l = Some df -> load l store = (Ok df, store).
Proof. unfold load. intros ->. reflexivity. Qed.

(** [alloc] binds a location the store did not hold and changes nothing
    else. *)
Lemma alloc_fresh (store : gmap loc (DataFrame scalar)) df :
  exists l, alloc df store = (Ok l, <[l := df]> store) /\ store !! l = None.
Proof.
  exists (fresh (dom store)). split; [reflexivity|].
  apply not_elem_of_dom, is_fresh.
Qed.

(** Running the steps of a computation in [ST] one at a time. *)
Ltac unfold_st :=
  unfold mbind, st_mbind, st_bind, lift, raise, mret, st_mret, st_ret.

Ltac run_load :=
  match goal with
  | |- context [load ?l ?s] =>
      rewrite (load_some s l _ ltac:(simplify_map_eq; reflexivity));
      cbv beta iota
  end.

Ltac run_alloc l H :=
  match goal with
  | |- context [alloc ?d ?s] =>
      destruct (alloc_fresh s d) as (l & -> & H); cbv beta iota;
      repeat (apply lookup_insert_None in H as [H ?])
  end.

Ltac extends :=
  repeat (apply insert_subseteq_r; [assumption|]); reflexivity.

Ltac stop_raised := eexists; split; [|reflexivity]; extends.

Ltac run_tail de data X :=
  cbv beta iota; run_load;
  let encoder := fresh "encoder" in
  let encoded_data := fresh "encoded_data" in
  let err := fresh "err" in
  let kept := fresh "kept" in
  let l3 := fresh "l3" in
  let Hl3 := fresh "Hl3" in
  let l4 := fresh "l4" in
  let Hl4 := fresh "Hl4" in
  let out := fresh "out" in
  let Hout := fresh "Hout" in
  destruct (fit_transform _ _ X) as [[encoder encoded_data]|err];
    [|stop_raised];
  cbv beta iota; run_load; run_alloc l3 Hl3;
  destruct de;
    [destruct (drop_columns data (labels X)) as [kept|err];
       [run_alloc l4 Hl4|stop_raised]|];
  cbv beta iota; run_load; run_load; run_alloc out Hout;
  (eexists; split; [|exists out; split; [reflexivity|split]];
   [extends|assumption|apply lookup_insert_eq]).

(** On a table object, [one_hot_encode] computes [encode_table] of the table,
    binds the result to a location the store did not hold, and leaves every
    table of the store in place. *)
Lemma one_hot_encode_table store l data columns de dc sp :
  store !! l = Some data ->
  exists store', store ⊆ store' /\
    match encode_table data columns de dc sp with
    | Ok t =>
        exists out,
          one_hot_encode (TableAt l) columns de dc sp store =
            (Ok (Table out), store') /\
          store !! out = None /\ store' !! out = Some t
    | Raise err =>
        one_hot_encode (TableAt l) columns de dc sp store = (Raise err, store')
    end.
Proof.
  intros Hl. unfold one_hot_encode, encode_table. unfold_st.
  run_load.
  destruct (empty data) eqn:Hempty.
  { exists store. split; reflexivity. }
  run_alloc l1 Hl1.
  destruct columns as [columns|].
  - run_load.
    destruct (check_columns_valid data columns); cbn [negb]; cbv beta iota;
      [|stop_raised].
    destruct (getitems data (map SStr columns)) as [X|err]; [|stop_raised].
    run_alloc l2 Hl2. run_tail de data X.
  - run_tail de data data.
Qed.

(** C10. [one_hot_encode] leaves the table it is given as it was, index,
    columns and values, whatever [drop_encoded_columns] says: every table of
    the store is still in place at its location after the call, and the
    table returned is a new object, at a location the store did not hold. *)
Theorem one_hot_encode_preserves_argument store l data columns de dc sp r store' :
  store !! l = Some data ->
  one_hot_encode (TableAt l) columns de dc sp store = (r, store') ->
  store' !! l = Some data /\
  store ⊆ store' /\
  (forall out, r = Ok (Table out) -> out <> l /\ store !! out = None).
Proof.
  intros Hl Hrun.
  destruct (one_hot_encode_table store l data columns de dc sp Hl)
    as (store'' & Hsub & Hcase).
  destruct (encode_table data columns de dc sp) as [t|err].
  - destruct Hcase as (out & Hrun' & Hfresh & _).
    rewrite Hrun in Hrun'. injection Hrun' as -> ->.
    split; [eapply lookup_weaken; eassumption|]. split; [assumption|].
    intros out' [= ->]. split; [congruence|assumption].
  - rewrite Hrun in Hcase. injection Hcase as -> ->.
    split; [eapply lookup_weaken; eassumption|]. split; [assumption|].
    intros out' [=].
Qed.

Lemma one_hot_encode_preserves_argument_witness :
  let store : gmap loc (DataFrame scalar) := {[ 1%positive := rocks ]} in
  let run := one_hot_encode (TableAt 1%positive) (Some ["rock"%string]) true
               None true store in
  snd run !! 1%positive = Some rocks /\
  fst run = Ok (Table 6%positive).
Proof.
  intros store run.
  destruct (one_hot_encode_preserves_argument store 1%positive rocks
              (Some ["rock"%string]) true None true (fst run) (snd run))
    as (Hkept & _ & _).
  - reflexivity.
  - apply surjective_pairing.
  - split; [exact Hkept|]. vm_compute. reflexivity.
Defined.

Lemma fit_categories (columns : list (list scalar)) cats :
  fit columns = Ok cats ->
  Forall2 (fun values cs => cs ≡ₚ remove_dups values) columns cats.
Proof.
  revert cats. induction columns as [|values columns IH]; intros cats; simpl.
  - intros [= <-]. constructor.
  - unfold categories_of. destruct (uniform values); [|discriminate].
    destruct (fit columns) as [rest|err]; [|discriminate].
    intros [= <-]. constructor; [apply merge_sort_Permutation|apply IH; reflexivity].
Qed.

Lemma fit_uniform (columns : list (list scalar)) :
  Forall (fun values => uniform values = true) columns ->
  exists cats, fit columns = Ok cats.
Proof.
  induction 1 as [|values columns Hu _ [rest IH]]; simpl; [eauto|].
  unfold categories_of. rewrite Hu, IH. eauto.
Qed.

Lemma retained_length (dc : option drop_choice) (cats : list scalar) :
  length (retained dc cats) = indicator_count dc (length cats).
Proof.
  destruct dc as [[]|]; simpl; [| |reflexivity].
  - destruct cats; simpl; lia.
  - destruct cats as [|c1 [|c2 [|c3 cats]]]; reflexivity.
Qed.

Lemma retained_elem (dc : option drop_choice) (cats : list scalar) c :
  c ∈ retained dc cats -> c ∈ cats.
Proof.
  destruct dc as [[]|]; simpl; [| |auto].
  - destruct cats; simpl; [auto|]. apply list_elem_of_further.
  - destruct (length cats =? 2)%nat; [|auto].
    destruct cats; simpl; [auto|]. apply list_elem_of_further.
Qed.

Lemma encoded_columns (dc : option drop_choice) (sp : bool)
    (columns : list (scalar * list scalar)) (cats : list (list scalar)) :
  zip_with (fun name cells => (SStr name, map SInt cells))
    (get_feature_names_out (mkEncoder dc sp cats) (map fst columns))
    (concat
       (zip_with
          (fun values cs =>
             map (fun category => indicator category values) (retained dc cs))
          (map snd columns) cats)) =
  concat (blocks_of dc columns cats).
Proof.
  unfold get_feature_names_out, blocks_of. simpl.
  revert cats. induction columns as [|[feature values] columns IH];
    intros [|cs cats]; simpl; try reflexivity.
  rewrite zip_with_app by (rewrite !length_map; reflexivity).
  rewrite IH. f_equal.
  induction (retained dc cs) as [|c rest IHr]; simpl; [reflexivity|].
  rewrite IHr. reflexivity.
Qed.

Lemma selects_labels data columns selected :
  selects data columns selected ->
  forallb (fun l => bool_decide (l ∈ labels data)) (labels selected) = true.
Proof.
  intros Hsel. apply forallb_forall. intros l' Hin. apply bool_decide_eq_true.
  apply list_elem_of_In in Hin.
  destruct columns as [columns|]; simpl in Hsel; [|subst; exact Hin].
  destruct Hsel as [_ Hget]. unfold getitems in Hget.
  destruct (forallb _ (map SStr columns)); [|discriminate].
  injection Hget as <-. unfold labels in *. simpl in Hin.
  apply list_elem_of_fmap in Hin as (col & -> & Hin).
  apply list_elem_of_In, in_flat_map in Hin as (l0 & _ & Hin).
  apply filter_In in Hin as [Hin _].
  apply list_elem_of_fmap. exists col. split; [reflexivity|].
  apply list_elem_of_In. exact Hin.
Qed.

Lemma encode_table_ok data columns de dc sp t :
  encode_table data columns de dc sp = Ok t ->
  exists selected cats,
    empty data = false /\
    selects data columns selected /\
    fit (map snd (df_columns selected)) = Ok cats /\
    t = mkFrame (df_index data)
          (kept_columns data selected de ++
           concat (blocks_of dc (df_columns selected) cats)).
Proof.
  unfold encode_table. destruct (empty data); [discriminate|].
  assert (Hsel : forall X,
            match columns with
            | Some columns =>
                if negb (check_columns_valid data columns)
                then Raise InvalidColumnException
                else getitems data (map SStr columns)
            | None => Ok data
            end = Ok X -> selects data columns X).
  { intros X. destruct columns as [columns|]; simpl.
    - destruct (check_columns_valid data columns); simpl; [auto|discriminate].
    - intros [= <-]. reflexivity. }
  destruct (match columns with Some _ => _ | None => _ end) as [X|err];
    [|discriminate].
  specialize (Hsel X eq_refl).
  unfold fit_transform.
  destruct (fit (map snd (df_columns X))) as [cats|err] eqn:Hfit; [|discriminate].
  intros Ht. exists X, cats. split; [reflexivity|]. split; [assumption|].
  split; [assumption|].
  unfold frame_of_matrix, labels in Ht. simpl in Ht.
  rewrite encoded_columns in Ht.
  unfold kept_columns. destruct de.
  - unfold drop_columns in Ht.
    fold (labels X) in Ht. fold (labels data) in Ht.
    rewrite (selects_labels _ _ _ Hsel) in Ht.
    injection Ht as <-. reflexivity.
  - injection Ht as <-. reflexivity.
Qed.

Lemma encode_table_returns data columns de dc sp selected :
  empty data = false ->
  selects data columns selected ->
  Forall (fun col => uniform (snd col) = true) (df_columns selected) ->
  exists t, encode_table data columns de dc sp = Ok t.
Proof.
  intros Hne Hsel Hunif. unfold encode_table. rewrite Hne.
  assert (Hfit : exists cats, fit (map snd (df_columns selected)) = Ok cats).
  { apply fit_uniform. apply Forall_fmap. exact Hunif. }
  destruct Hfit as [cats Hfit].
  pose proof (selects_labels _ _ _ Hsel) as Hlabels.
  destruct columns as [columns|]; simpl in Hsel.
  - destruct Hsel as [-> ->]. simpl. unfold fit_transform. rewrite Hfit.
    destruct de; [|eauto]. unfold drop_columns. rewrite Hlabels. eauto.
  - subst selected. unfold fit_transform. rewrite Hfit.
    destruct de; [|eauto]. unfold drop_columns. rewrite Hlabels. eauto.
Qed.

Lemma blocks_of_features dc columns cats :
  fit (map snd columns) = Ok cats ->
  Forall2 (block_of_feature dc) columns (blocks_of dc columns cats).
Proof.
  intros Hfit. apply fit_categories in Hfit. unfold blocks_of.
  remember (map snd columns) as values eqn:Hvalues.
  revert columns Hvalues.
  induction Hfit as [|vs cs values cats Hperm _ IH]; intros [|col columns] Hvalues;
    simpl in *; try discriminate; [constructor|].
  injection Hvalues as -> ->. constructor; [|apply IH; reflexivity].
  split.
  - rewrite length_map, retained_length. unfold unique_count.
    rewrite (Permutation_length Hperm). reflexivity.
  - apply Forall_fmap, Forall_forall. intros category Hin. simpl.
    exists category. split; [|reflexivity].
    apply retained_elem in Hin. rewrite Hperm in Hin.
    rewrite elem_of_remove_dups in Hin. exact Hin.
Qed.

(** C6. On a table object and with the default frequency limits, the table
    [one_hot_encode] returns holds the kept columns of the argument followed
    by one block of new indicator columns for each selected column: [k]
    columns for a selected column with [k] distinct values, [k - 1] under
    [drop_category = "first"]; when [drop_encoded_columns] is set no kept
    column carries the label of a selected column.  And the call does
    return such a table whenever the argument is not empty, the selected
    columns exist and each of them holds integers only or strings only. *)
Theorem one_hot_encode_indicator_columns store l data columns de dc sp :
  store !! l = Some data ->
  (forall r store',
     one_hot_encode (TableAt l) columns de dc sp store = (Ok r, store') ->
     exists out selected blocks,
       r = Table out /\
       selects data columns selected /\
       store' !! out =
         Some (mkFrame (df_index data)
                 (kept_columns data selected de ++ concat blocks)) /\
       Forall2 (block_of_feature dc) (df_columns selected) blocks /\
       (de = true ->
        forall col, col ∈ kept_columns data selected de ->
                    fst col ∉ labels selected)) /\
  (forall selected,
     empty data = false ->
     selects data columns selected ->
     Forall (fun col => uniform (snd col) = true) (df_columns selected) ->
     exists out store',
       one_hot_encode (TableAt l) columns de dc sp store =
         (Ok (Table out), store')).
Proof.
  intros Hl.
  destruct (one_hot_encode_table store l data columns de dc sp Hl)
    as (store'' & _ & Hcase).
  split.
  - intros r store' Hrun.
    destruct (encode_table data columns de dc sp) as [t|err] eqn:Henc;
      [|rewrite Hrun in Hcase; discriminate].
    destruct Hcase as (out & Hrun' & _ & Hout).
    rewrite Hrun in Hrun'. injection Hrun' as -> ->.
    apply encode_table_ok in Henc as (selected & cats & _ & Hsel & Hfit & ->).
    exists out, selected, (blocks_of dc (df_columns selected) cats).
    split; [reflexivity|]. split; [assumption|]. split; [assumption|].
    split; [apply blocks_of_features; assumption|].
    intros -> col Hin. unfold kept_columns in Hin.
    apply list_elem_of_In, filter_In in Hin as [_ Hin].
    apply negb_true_iff, bool_decide_eq_false in Hin. exact Hin.
  - intros selected Hne Hsel Hunif.
    destruct (encode_table_returns data columns de dc sp selected Hne Hsel Hunif)
      as [t Henc].
    rewrite Henc in Hcase. destruct Hcase as (out & Hrun & _).
    eauto.
Qed.

Lemma one_hot_encode_indicator_columns_witness :
  let store : gmap loc (DataFrame scalar) := {[ 1%positive := rocks ]} in
  let selected :=
    mkFrame (df_index rocks)
      [(SStr "rock",
        [SStr "granite"; SStr "basalt"; SStr "granite"; SStr "gneiss"])] in
  exists out store' blocks,
    one_hot_encode (TableAt 1%positive) (Some ["rock"%string]) true None true
      store = (Ok (Table out), store') /\
    store' !! out =
      Some (mkFrame (df_index rocks)
              (kept_columns rocks selected true ++ concat blocks)) /\
    Forall2 (block_of_feature None) (df_columns selected) blocks.
Proof.
  intros store selected.
  destruct (one_hot_encode_indicator_columns store 1%positive rocks
              (Some ["rock"%string]) true None true eq_refl) as [Hinv Hret].
  destruct (Hret selected) as (out & store' & Hrun).
  { reflexivity. }
  { split; reflexivity. }
  { apply Forall_cons_2; [reflexivity|constructor]. }
  destruct (Hinv _ _ Hrun)
    as (out' & selected' & blocks & Hout & [_ Hsel] & Hframe & Hblocks & _).
  injection Hout as <-.
  vm_compute in Hsel. injection Hsel as <-.
  exists out, store', blocks. split; [exact Hrun|]. split; assumption.
Defined.

(** The table of rock samples, encoded on its column of three rock types:
    three indicator columns without [drop_category], two under ["first"],
    and the column itself gone. *)
Example one_hot_encode_rocks :
  forall dc,
  match one_hot_encode (TableAt 1%positive) (Some ["rock"%string]) true dc
          true {[ 1%positive := rocks ]} with
  | (Ok (Table out), store') =>
      labels <$> store' !! out =
      Some ([SStr "zone"; SStr "depth"] ++
            match dc with
            | Some first => [SStr "rock_gneiss"; SStr "rock_granite"]
            | _ => [SStr "rock_basalt"; SStr "rock_gneiss"; SStr "rock_granite"]
            end)
  | _ => False
  end.
Proof. intros [[]|]; vm_compute; reflexivity. Qed.

End OneHotEncodingSpec.

(** ** Raster resampling: reads, failures and geometry *)

Section ResamplingGeometry.
Import Resampling.
Local Open Scope Q_scope.

Ltac case_zero :=
  match goal with
  | |- context [Z.eqb ?x 0] => destruct (Z.eqb_spec x 0)
  end.

(** What [_resample] does on each of its three paths. *)
Lemma _resample_cases raster m sx sy log :
  let shp := requested_shape raster sx sy in
  snd (_resample raster m sx sy log) = log ++ [Read shp m] /\
  match fst (_resample raster m sx sy log) with
  | Ok (img, mt) => True
  | Raise err =>
      (err = LibraryError /\ pixels raster shp m = None) \/
      (err = ZeroDivisionError /\ (snd shp = 0%Z \/ snd (fst shp) = 0%Z))
  end.
Proof.
  unfold _resample, requested_shape, mbind, st_mbind, st_bind, read, lift,
    py_truediv, mret, st_mret, st_ret, shape_last, shape_last2.
  destruct sy as [y|]; simpl;
    (destruct (pixels raster _ m) as [px|] eqn:Hpx; simpl; [|auto]);
    repeat case_zero; simpl; auto.
Qed.

(** X1. [resample] reads the raster at most once, with the method it was
    given; when it returns, it has read exactly once, and what it asked for
    is the shape of the image it returns, whose number of bands is that of
    the raster. *)
Theorem resample_reads_at_most_once raster sx sy m log :
  (snd (resample raster sx sy m log) = log \/
   exists out_shape,
     snd (resample raster sx sy m log) = log ++ [Read out_shape m]) /\
  (forall img mt log',
     resample raster sx sy m log = (Ok (img, mt), log') ->
     log' = log ++ [Read (shape img) m] /\
     fst (fst (shape img)) = count (meta raster)).
Proof.
  destruct (check_numeric_value_sign sx) eqn:Hsign.
  - apply check_numeric_value_sign_spec in Hsign.
    rewrite resample_positive by assumption. split.
    + right. eexists. apply _resample_log.
    + intros img mt log' Hrun.
      apply _resample_inv in Hrun as (px & _ & -> & _ & _ & _ & ->).
      split; reflexivity.
  - unfold resample. rewrite Hsign. simpl. split; [left; reflexivity|].
    discriminate.
Qed.

Lemma resample_reads_at_most_once_witness :
  exists img mt,
    resample (grid 10 20) (1 # 2) None cubic [] =
      (Ok (img, mt), [Read (1, 10, 5)%Z cubic]) /\
    shape img = (1, 10, 5)%Z.
Proof.
  destruct (resample (grid 10 20) (1 # 2) None cubic [])
    as [[[img mt]|err] log'] eqn:Hrun; [|vm_compute in Hrun; discriminate].
  destruct (proj2 (resample_reads_at_most_once (grid 10 20) (1 # 2) None
                     cubic []) img mt log' Hrun) as [Hlog _].
  exists img, mt.
  assert (Hshape : shape img = (1, 10, 5)%Z)
    by (vm_compute in Hrun; injection Hrun as <- _ _; reflexivity).
  rewrite Hlog, Hshape. split; reflexivity.
Defined.

(** X2. The sign check of [resample] looks at the horizontal factor alone:
    with a strictly positive horizontal factor the call does not raise
    [NumericValueSignException], whatever the vertical factor, a zero or a
    negative one included. *)
Theorem resample_vertical_unchecked raster sx sy m log :
  0 < sx ->
  fst (resample raster sx sy m log) <> Raise NumericValueSignException.
Proof.
  intros Hpos. rewrite resample_positive by assumption.
  destruct (_resample_cases raster m sx sy log) as [_ Hfst].
  destruct (fst (_resample raster m sx sy log)) as [out|err]; [discriminate|].
  destruct Hfst as [[-> _]|[-> _]]; discriminate.
Qed.

Lemma resample_vertical_unchecked_witness :
  fst (resample (grid 10 20) 2 (Some (-1)) bilinear []) <>
    Raise NumericValueSignException /\
  fst (resample (grid 10 20) 2 (Some 0) bilinear []) <>
    Raise NumericValueSignException.
Proof.
  split.
  - apply (resample_vertical_unchecked (grid 10 20) 2 (Some (-1)) bilinear []).
    reflexivity.
  - apply (resample_vertical_unchecked (grid 10 20) 2 (Some 0) bilinear []).
    reflexivity.
Defined.

Lemma inject_Z_nonzero (k : Z) : k <> 0%Z -> ~ inject_Z k == 0.
Proof. intros Hk H0. apply Hk. unfold Qeq in H0. simpl in H0. lia. Qed.

(** X3. The grid [resample] returns covers the ground the input covers: the
    pixel size times the number of pixels is the same before and after,
    along both axes, and the origin of the transform does not move. *)
Theorem resample_extent raster sx sy m log img mt log' :
  0 < sx ->
  resample raster sx sy m log = (Ok (img, mt), log') ->
  pixel_size_x (transform mt) * inject_Z (width mt) ==
    pixel_size_x (transform (meta raster)) * inject_Z (width (meta raster)) /\
  pixel_size_y (transform mt) * inject_Z (height mt) ==
    pixel_size_y (transform (meta raster)) * inject_Z (height (meta raster)) /\
  c (transform mt) == c (transform (meta raster)) /\
  f (transform mt) == f (transform (meta raster)).
Proof.
  intros Hpos Hrun. rewrite resample_positive in Hrun by assumption.
  apply _resample_inv in Hrun as (px & _ & _ & Hw & Hh & -> & _).
  apply inject_Z_nonzero in Hw, Hh.
  unfold pixel_size_x, pixel_size_y. simpl.
  repeat split; try (field; assumption); ring.
Qed.

Lemma resample_extent_witness :
  exists img mt log',
    resample (grid 3 3) (1 # 2) None bilinear [] = (Ok (img, mt), log') /\
    width mt = 2%Z /\
    pixel_size_x (transform mt) * inject_Z (width mt) == 3.
Proof.
  do 3 eexists. split; [vm_compute; reflexivity|]. split; [reflexivity|].
  refine (proj1 (resample_extent (grid 3 3) (1 # 2) None bilinear []
                   _ _ _ _ _)); reflexivity.
Defined.

(** X4. The factor 1 gives back the grid of the input: the same numbers of
    bands, rows and columns and a transform with the same coefficients,
    provided the raster has no zero dimension and the library delivers the
    read. *)
Theorem resample_identity raster m log px :
  width (meta raster) <> 0%Z ->
  height (meta raster) <> 0%Z ->
  pixels raster
    (count (meta raster), height (meta raster), width (meta raster)) m =
    Some px ->
  exists mt,
    resample raster 1 None m log =
      (Ok (mkArray (count (meta raster), height (meta raster),
                    width (meta raster)) px, mt),
       log ++ [Read (count (meta raster), height (meta raster),
                     width (meta raster)) m]) /\
    width mt = width (meta raster) /\
    height mt = height (meta raster) /\
    a (transform mt) == a (transform (meta raster)) /\
    b (transform mt) == b (transform (meta raster)) /\
    c (transform mt) == c (transform (meta raster)) /\
    d (transform mt) == d (transform (meta raster)) /\
    e (transform mt) == e (transform (meta raster)) /\
    f (transform mt) == f (transform (meta raster)).
Proof.
  intros Hw Hh Hpx.
  assert (Hshape : requested_shape raster 1 None =
                   (count (meta raster), height (meta raster),
                    width (meta raster))).
  { unfold requested_shape. simpl.
    rewrite (py_round_whole _ (height (meta raster))) by ring.
    rewrite (py_round_whole _ (width (meta raster))) by ring. reflexivity. }
  destruct (_resample_returns raster m 1 None log px) as [mt Hrun];
    rewrite ?Hshape; try assumption.
  rewrite Hshape in Hrun.
  exists mt. rewrite resample_positive by reflexivity.
  split; [exact Hrun|].
  apply _resample_inv in Hrun as (px' & _ & _ & _ & _ & -> & _).
  rewrite Hshape. simpl.
  apply inject_Z_nonzero in Hw, Hh.
  repeat split; try reflexivity; try (field; assumption); ring.
Qed.

Lemma resample_identity_witness :
  exists mt,
    resample (grid 10 20) 1 None nearest [] =
      (Ok (mkArray (1, 20, 10)%Z [], mt), [Read (1, 20, 10)%Z nearest]) /\
    width mt = 10%Z /\ height mt = 20%Z.
Proof.
  destruct (resample_identity (grid 10 20) nearest [] [])
    as (mt & Hrun & Hw & Hh & _).
  - vm_compute. discriminate.
  - vm_compute. discriminate.
  - reflexivity.
  - exists mt. split; [exact Hrun|]. split; assumption.
Defined.

Lemma py_round_small (x : Q) : 0 <= x -> x <= 1 # 2 -> py_round x = 0%Z.
Proof.
  intros Hlo Hhi. unfold py_round.
  assert (Hfl : Qfloor x = 0%Z).
  { apply Z.le_antisymm.
    - change 0%Z with (Qfloor (1 # 2)). apply Qfloor_resp_le. exact Hhi.
    - change 0%Z with (Qfloor 0). apply Qfloor_resp_le. exact Hlo. }
  rewrite Hfl. change (inject_Z 0) with 0.
  destruct (Qcompare (x - 0) (1 # 2)) eqn:Hcmp; [reflexivity|reflexivity|].
  apply Qgt_alt in Hcmp. lra.
Qed.

(** X5. Scaling a raster down until a dimension rounds to zero makes
    [resample] raise: when [width * s] or [height * s] lies between 0 and
    1/2, the call never returns a grid. *)
Theorem resample_vanishing raster s m log :
  0 < s ->
  (0 <= inject_Z (width (meta raster)) * s <= 1 # 2 \/
   0 <= inject_Z (height (meta raster)) * s <= 1 # 2) ->
  exists err,
    fst (resample raster s None m log) = Raise err /\
    (err = ZeroDivisionError \/ err = LibraryError).
Proof.
  intros Hpos Hsmall.
  assert (Hzero : snd (requested_shape raster s None) = 0%Z \/
                  snd (fst (requested_shape raster s None)) = 0%Z).
  { unfold requested_shape. simpl.
    destruct Hsmall as [[Hlo Hhi]|[Hlo Hhi]];
      [left|right]; apply py_round_small; assumption. }
  destruct (fst (resample raster s None m log)) as [[img mt]|err] eqn:Hrun.
  - exfalso.
    assert (Hfull : resample raster s None m log =
                    (Ok (img, mt), snd (resample raster s None m log))).
    { rewrite <- Hrun. apply surjective_pairing. }
    rewrite resample_positive in Hfull by assumption.
    apply _resample_inv in Hfull as (px & _ & _ & Hw & Hh & _).
    destruct Hzero; contradiction.
  - exists err. split; [reflexivity|].
    rewrite resample_positive in Hrun by assumption.
    destruct (_resample_cases raster m s None log) as [_ Hfst].
    rewrite Hrun in Hfst. destruct Hfst as [[-> _]|[-> _]]; auto.
Qed.

Lemma resample_vanishing_witness :
  exists err,
    fst (resample (grid 1 1) (1 # 2) None bilinear []) = Raise err /\
    (err = ZeroDivisionError \/ err = LibraryError).
Proof.
  apply (resample_vanishing (grid 1 1) (1 # 2) bilinear []).
  - reflexivity.
  - left. split; vm_compute; discriminate.
Defined.

End ResamplingGeometry.

(** ** Statistical tests: the order of the checks and what is computed *)

Section ChiSquareSpec.
Import Pandas StatisticalTests ChiSquare.

Variable chi2 : list cell -> list cell -> option (Q * Q * Z).

(** X6. [chi_square_test] turns an empty table away with
    [EmptyDataFrameException] and a table without the target column with
    [InvalidParameterValueException], in this order and before any
    contingency table is built. *)
Theorem chi_square_test_checks (data : DataFrame cell) (target_column : string)
    (columns : option (list string)) (log : list event) :
  (empty data = true ->
   chi_square_test chi2 data target_column columns log =
     (Raise EmptyDataFrameException, log)) /\
  (empty data = false -> SStr target_column ∉ labels data ->
   chi_square_test chi2 data target_column columns log =
     (Raise InvalidParameterValueException, log)).
Proof.
  unfold chi_square_test, check_empty_dataframe, check_columns_valid.
  split.
  - intros ->. reflexivity.
  - intros -> Hmissing. simpl.
    rewrite bool_decide_eq_false_2 by assumption. reflexivity.
Qed.

Lemma test_against_errors (data : DataFrame cell) (target_column : scalar)
    (columns : list scalar) statistics log err :
  fst (test_against chi2 data target_column columns statistics log) = Raise err ->
  err = KeyError \/ err = ValueError.
Proof.
  revert statistics log.
  induction columns as [|column columns IH]; intros statistics log; simpl.
  - discriminate.
  - case_bool_decide; [|apply IH].
    unfold mbind, st_mbind, st_bind, lift, call_chi2_contingency, getitem.
    destruct (List.find _ (df_columns data)) as [colx|]; simpl; [|intros [= <-]; auto].
    destruct (List.find _ (df_columns data)) as [coly|]; simpl; [|intros [= <-]; auto].
    destruct (chi2 _ _); [apply IH|intros [= <-]; auto].
Qed.

(** What a returning run of the loop has done: one contingency test for each
    column that is not the target, in order, each filed under its column. *)
Lemma test_against_ok (data : DataFrame cell) (target_column : scalar)
    (columns : list scalar) statistics log d log' :
  test_against chi2 data target_column columns statistics log = (Ok d, log') ->
  dom d = dom statistics ∪
          list_to_set (filter (fun column => column <> target_column) columns) /\
  log' = log ++ map (Contingency target_column)
                  (filter (fun column => column <> target_column) columns) /\
  (forall column t,
     d !! column = Some t ->
     statistics !! column = Some t \/
     exists x y,
       getitem data target_column = Ok x /\ getitem data column = Ok y /\
       chi2 x y = Some t).
Proof.
  revert statistics log.
  induction columns as [|column columns IH]; intros statistics log; simpl.
  - intros [= <- <-].
    split; [simpl; by rewrite (right_id_L ∅ (∪))|].
    split; [by rewrite app_nil_r|]. auto.
  - case_bool_decide as Hne.
    + rewrite filter_cons_True by assumption.
      unfold mbind, st_mbind, st_bind, lift, call_chi2_contingency.
      destruct (getitem data target_column) as [x|] eqn:Hx; [|discriminate].
      destruct (getitem data column) as [y|] eqn:Hy; [|discriminate].
      destruct (chi2 x y) as [t|] eqn:Ht; [|discriminate].
      intros Hrun. apply IH in Hrun as (Hdom & Hlog & Hval).
      split.
      { rewrite Hdom, dom_insert_L. simpl.
        rewrite (comm_L (∪) {[column]} (dom statistics)), <- (assoc_L (∪)).
        reflexivity. }
      split; [rewrite Hlog, <- app_assoc; reflexivity|].
      intros column' t' Hd. destruct (Hval _ _ Hd) as [Hin|Hex]; [|auto].
      destruct (decide (column = column')) as [<-|Hother].
      * rewrite lookup_insert_eq in Hin. injection Hin as <-. eauto 6.
      * rewrite lookup_insert_ne in Hin by assumption. auto.
    + rewrite filter_cons_False
        by (intros Hc; first [contradiction|apply Hc; assumption]).
      apply IH.
Qed.

(** X7. A selected column that the table lacks makes [chi_square_test] raise
    [InvalidParameterValueException] before any test exactly when the name
    of some such column is not the empty string: the test [any] on the list
    of missing names takes an empty name for no name. *)
Theorem chi_square_test_missing (data : DataFrame cell) (target_column : string)
    (columns : list string) (log : list event) :
  empty data = false ->
  SStr target_column ∈ labels data ->
  chi_square_test chi2 data target_column (Some columns) log =
    (Raise InvalidParameterValueException, log) <->
  exists column,
    column ∈ columns /\ column <> ""%string /\ SStr column ∉ labels data.
Proof.
  intros Hne Htarget.
  unfold chi_square_test, check_empty_dataframe, check_columns_valid.
  rewrite Hne. simpl. rewrite bool_decide_eq_true_2 by assumption. simpl.
  unfold mbind at 1, st_mbind, st_bind.
  destruct (any_truthy _) eqn:Hany.
  - split; [intros _|reflexivity].
    apply existsb_exists in Hany as (column & Hin & Hname).
    apply filter_In in Hin as [Hin Hmissing].
    exists column. split; [apply list_elem_of_In; exact Hin|]. split.
    + intros ->. discriminate.
    + apply negb_true_iff, bool_decide_eq_false in Hmissing. exact Hmissing.
  - split.
    + intros Hrun. exfalso.
      assert (Hfst : fst (test_against chi2 data (SStr target_column)
                            (map SStr columns) ∅ log) =
                     Raise InvalidParameterValueException).
      { unfold mret, st_mret, st_ret in Hrun. simpl in Hrun.
        rewrite Hrun. reflexivity. }
      apply test_against_errors in Hfst as [Hfst|Hfst]; discriminate.
    + intros (column & Hin & Hname & Hmissing). exfalso.
      assert (Htrue : any_truthy
                (List.filter
                   (fun column => negb (bool_decide (SStr column ∈ labels data)))
                   columns) = true); [|congruence].
      apply existsb_exists. exists column. split.
      * apply filter_In. split; [apply list_elem_of_In; exact Hin|].
        apply negb_true_iff, bool_decide_eq_false. exact Hmissing.
      * apply negb_true_iff, String.eqb_neq. exact Hname.
Qed.

(** X8. When [chi_square_test] returns, it has run one contingency test for
    each requested column other than the target (all columns of the table
    when none is requested), in order; the result has exactly those columns
    as keys, never the target, and under each key the statistic of the
    target column against that column. *)
Theorem chi_square_test_result (data : DataFrame cell) (target_column : string)
    (columns : option (list string)) (log log' : list event)
    (d : gmap scalar (Q * Q * Z)) :
  chi_square_test chi2 data target_column columns log = (Ok d, log') ->
  let tested :=
    filter (fun column => column <> SStr target_column)
      (match columns with
       | Some columns => map SStr columns
       | None => labels data
       end) in
  dom d = list_to_set tested /\
  (SStr target_column ∉ dom d) /\
  log' = log ++ map (Contingency (SStr target_column)) tested /\
  (forall column t,
     d !! column = Some t ->
     exists x y,
       getitem data (SStr target_column) = Ok x /\
       getitem data column = Ok y /\ chi2 x y = Some t).
Proof.
  unfold chi_square_test.
  destruct (check_empty_dataframe data); [discriminate|].
  destruct (negb (check_columns_valid data [target_column])); [discriminate|].
  unfold mbind at 1, st_mbind, st_bind.
  assert (Hloop : forall cs,
            test_against chi2 data (SStr target_column) cs ∅ log = (Ok d, log') ->
            let tested := filter (fun column => column <> SStr target_column) cs in
            dom d = list_to_set tested /\
            (SStr target_column ∉ dom d) /\
            log' = log ++ map (Contingency (SStr target_column)) tested /\
            (forall column t,
               d !! column = Some t ->
               exists x y,
                 getitem data (SStr target_column) = Ok x /\
                 getitem data column = Ok y /\ chi2 x y = Some t)).
  { intros cs Hrun. apply test_against_ok in Hrun as (Hdom & Hlog & Hval).
    rewrite dom_empty_L, (left_id_L ∅ (∪)) in Hdom.
    split; [exact Hdom|]. split.
    - rewrite Hdom, elem_of_list_to_set, list_elem_of_filter. tauto.
    - split; [exact Hlog|].
      intros column t Hd. destruct (Hval _ _ Hd) as [Hin|Hex]; [|exact Hex].
      rewrite lookup_empty in Hin. discriminate. }
  destruct columns as [columns|].
  - destruct (any_truthy _); [discriminate|]. apply Hloop.
  - apply Hloop.
Qed.

End ChiSquareSpec.

Lemma chi_square_test_checks_witness :
  ChiSquare.chi_square_test ChiSquare.plain_chi2 (Pandas.mkFrame [] [])
    "rock" None [] = (Raise EmptyDataFrameException, []) /\
  ChiSquare.chi_square_test ChiSquare.plain_chi2 ChiSquare.survey
    "age" (Some ["zone"%string]) [] =
    (Raise InvalidParameterValueException, []).
Proof.
  split.
  - apply (proj1 (chi_square_test_checks ChiSquare.plain_chi2
                    (Pandas.mkFrame [] []) "rock" None [])).
    reflexivity.
  - apply (proj2 (chi_square_test_checks ChiSquare.plain_chi2
                    ChiSquare.survey "age" (Some ["zone"%string]) [])).
    + reflexivity.
    + vm_compute. intros Hin. repeat (apply elem_of_cons in Hin as [Hin|Hin]; [discriminate|]).
      apply elem_of_nil in Hin. exact Hin.
Defined.

Lemma chi_square_test_missing_witness :
  ChiSquare.chi_square_test ChiSquare.plain_chi2 ChiSquare.survey "rock"
    (Some ["zone"; "depth"]%string) [] =
    (Raise InvalidParameterValueException, []) /\
  ChiSquare.chi_square_test ChiSquare.plain_chi2 ChiSquare.survey "rock"
    (Some ["zone"; ""]%string) [] <>
    (Raise InvalidParameterValueException, []).
Proof.
  assert (Htarget : Pandas.SStr "rock" ∈ Pandas.labels ChiSquare.survey)
    by (vm_compute; apply list_elem_of_here).
  split.
  - apply (proj2 (chi_square_test_missing ChiSquare.plain_chi2 ChiSquare.survey
                    "rock" ["zone"; "depth"]%string [] eq_refl Htarget)).
    exists "depth"%string. split; [|split].
    + apply list_elem_of_further, list_elem_of_here.
    + discriminate.
    + apply (bool_decide_eq_false_1 _). vm_compute. reflexivity.
  - intros Hraise.
    apply (proj1 (chi_square_test_missing ChiSquare.plain_chi2 ChiSquare.survey
                    "rock" ["zone"; ""]%string [] eq_refl Htarget)) in Hraise.
    destruct Hraise as (column & Hin & Hname & Hmissing).
    apply elem_of_cons in Hin as [->|Hin].
    + apply Hmissing. vm_compute. do 2 apply list_elem_of_further.
      apply list_elem_of_here.
    + apply elem_of_cons in Hin as [->|Hin]; [congruence|].
      apply elem_of_nil in Hin. exact Hin.
Defined.

(** A missing column without a name goes through the check and fails at the
    lookup. *)
Example chi_square_test_unnamed :
  ChiSquare.chi_square_test ChiSquare.plain_chi2 ChiSquare.survey "rock"
    (Some ["zone"; ""]%string) [] =
  (Raise KeyError,
   [ChiSquare.Contingency (Pandas.SStr "rock") (Pandas.SStr "zone")]).
Proof. vm_compute. reflexivity. Qed.

Lemma chi_square_test_result_witness :
  exists d log',
    ChiSquare.chi_square_test ChiSquare.plain_chi2 ChiSquare.survey "rock"
      None [] = (Ok d, log') /\
    dom d = {[ Pandas.SStr "altered"; Pandas.SStr "zone" ]} /\
    length log' = 2%nat.
Proof.
  destruct (ChiSquare.chi_square_test ChiSquare.plain_chi2 ChiSquare.survey
              "rock" None []) as [[d|err] log'] eqn:Hrun;
    [|vm_compute in Hrun; discriminate].
  exists d, log'. split; [reflexivity|].
  destruct (chi_square_test_result ChiSquare.plain_chi2 ChiSquare.survey
              "rock" None [] log' d Hrun) as (Hdom & _ & Hlog & _).
  split.
  - rewrite Hdom. vm_compute. reflexivity.
  - rewrite Hlog. reflexivity.
Defined.

Section StatisticalChecks.
Import Pandas StatisticalTests NormalityTested.

Variable E : Externals.

(** X9. [normality_test] turns away an empty table, an array without
    elements and a table that lacks a selected column, with
    [EmptyDataException] for the first two and [InvalidColumnException] for
    the third, before the column-type check or the statistic is called. *)
Theorem normality_test_checks (log : list event) :
  (forall df columns,
     empty df = true ->
     normality_test E (Frame df) columns log = (Raise EmptyDataException, log)) /\
  (forall a columns,
     size a = 0%nat ->
     normality_test E (Array a) columns log = (Raise EmptyDataException, log)) /\
  (forall df columns column,
     empty df = false -> column ∈ columns -> SStr column ∉ labels df ->
     normality_test E (Frame df) (Some columns) log =
       (Raise InvalidColumnException, log)).
Proof.
  split; [|split].
  - intros df columns Hempty. unfold normality_test, check_empty_dataframe.
    rewrite Hempty. reflexivity.
  - intros a columns Hsize. unfold normality_test. rewrite Hsize. reflexivity.
  - intros df columns column Hne Hin Hmissing.
    unfold normality_test, check_empty_dataframe. rewrite Hne.
    assert (Hvalid : check_columns_valid df columns = false).
    { apply not_true_is_false. intros Hall.
      unfold check_columns_valid in Hall.
      rewrite forallb_forall in Hall.
      apply list_elem_of_In in Hin. specialize (Hall _ Hin).
      apply bool_decide_eq_true in Hall. contradiction. }
    rewrite Hvalid. reflexivity.
Qed.

(** X10. With an empty selection of columns, [normality_test] on a table
    that passes the checks returns an empty dictionary without calling the
    statistic, however many rows the table has. *)
Theorem normality_test_no_columns (df : DataFrame cell) (log : list event) :
  empty df = false ->
  check_columns_numeric E df [] = true ->
  normality_test E (Frame df) (Some []) log =
    (Ok (PerColumn ∅), log ++ [CheckNumeric []]).
Proof.
  intros Hne Hnum. unfold normality_test, check_empty_dataframe.
  rewrite Hne. simpl.
  unfold mbind, st_mbind, st_bind, call_check_columns_numeric.
  rewrite Hnum. reflexivity.
Qed.

(** X11. On an array, the sample-size check of [normality_test] looks at the
    length of the first axis alone: an array that has elements is turned
    away with [SampleSizeExceededException] exactly when its first axis is
    longer than 5000, whatever the lengths of its other axes. *)
Theorem normality_test_first_axis_only (n : nat) (axes : list nat)
    (elems : list cell) columns (log : list event) :
  size (mkNdarray (n :: axes) elems) <> 0%nat ->
  fst (normality_test E (Array (mkNdarray (n :: axes) elems)) columns log) =
    Raise SampleSizeExceededException <->
  (5000 < Z.of_nat n)%Z.
Proof.
  intros Hsize. unfold normality_test, len, lift.
  destruct (Nat.eqb_spec (size (mkNdarray (n :: axes) elems)) 0);
    [contradiction|].
  cbn [nd_shape nd_elems]. unfold mbind at 1, st_mbind, st_bind.
  destruct (Z.ltb_spec 5000 (Z.of_nat n)) as [Hlt|Hle].
  - split; [intros _; exact Hlt|reflexivity].
  - split; [|lia].
    destruct (forallb is_number elems); simpl; [|discriminate].
    unfold mbind, st_mbind, st_bind, call_shapiro.
    destruct (shapiro E _); discriminate.
Qed.

(** X12. When [normality_test] returns on an array, it has called the
    statistic once, on the elements of the array that are not missing, in
    order and flattened, and returns what the statistic answered; the
    argument [columns] plays no part. *)
Theorem normality_test_array_result (a : ndarray cell) columns
    (log log' : list event) (r : statistics) :
  normality_test E (Array a) columns log = (Ok r, log') ->
  let sample := List.filter (fun x => negb (isna x)) (nd_elems a) in
  Forall (fun x => isna x = false /\ is_number x = true) sample /\
  log' = log ++ [Shapiro sample] /\
  exists t, shapiro E sample = Some t /\ r = Whole t.
Proof.
  unfold normality_test.
  destruct (size a =? 0)%nat; [discriminate|].
  unfold mbind at 1, st_mbind, st_bind, lift, len.
  destruct (nd_shape a) as [|n axes]; [discriminate|].
  destruct (5000 <? Z.of_nat n)%Z; [discriminate|].
  destruct (forallb is_number (nd_elems a)) eqn:Hnum; simpl; [|discriminate].
  unfold mbind, st_mbind, st_bind, call_shapiro.
  destruct (shapiro E _) as [t|] eqn:Ht; [|discriminate].
  intros [= <- <-]. split; [|split; [reflexivity|eauto]].
  apply Forall_forall. intros x Hin.
  apply list_elem_of_In, filter_In in Hin as [Hin Hna].
  split; [apply negb_true_iff; exact Hna|].
  rewrite forallb_forall in Hnum. apply Hnum. exact Hin.
Qed.

Lemma row_mask_complete {C} (isna : C -> bool) (cols : list (scalar * list C))
    (n i : nat) :
  row_mask isna cols n !! i = Some true ->
  forall col x, col ∈ cols -> snd col !! i = Some x -> isna x = false.
Proof.
  revert i. induction cols as [|col0 cols IH]; intros i Hmask col x Hin Hx.
  - apply elem_of_nil in Hin. contradiction.
  - simpl in Hmask.
    apply lookup_zip_with_Some in Hmask as (keep & rest & Hand & Hkeep & Hrest).
    symmetry in Hand. apply andb_true_iff in Hand as [-> ->].
    apply elem_of_cons in Hin as [->|Hin]; [|eapply IH; eassumption].
    rewrite list_lookup_fmap, Hx in Hkeep. simpl in Hkeep.
    injection Hkeep as Hkeep. apply negb_true_iff. exact Hkeep.
Qed.

Lemma filter_mask_Forall {A} (P : A -> Prop) (mask : list bool) (l : list A) :
  (forall i x, mask !! i = Some true -> l !! i = Some x -> P x) ->
  Forall P (filter_mask mask l).
Proof.
  revert l. induction mask as [|keep mask IH]; intros [|x l] Hall; simpl;
    try constructor.
  assert (Hrest : Forall P (filter_mask mask l)).
  { apply IH. intros i y Hm Hl. exact (Hall (S i) y Hm Hl). }
  destruct keep; [|exact Hrest].
  constructor; [exact (Hall 0%nat x eq_refl eq_refl)|exact Hrest].
Qed.

(** No column of a table that went through [dropna] holds a missing value. *)
Lemma dropna_complete {C} (isna : C -> bool) (df : DataFrame C) col :
  col ∈ df_columns (dropna isna df) ->
  Forall (fun x => isna x = false) (snd col).
Proof.
  unfold dropna. simpl. intros Hin.
  apply list_elem_of_fmap in Hin as (col0 & -> & Hin). simpl.
  apply filter_mask_Forall. intros i x Hmask Hx.
  eapply row_mask_complete; eassumption.
Qed.

(** The calls of the loop of [normality_test], on every path: one call of
    the statistic for each column reached, on the cells of a column of the
    table. *)
Lemma test_columns_log (data : DataFrame cell) (columns : list scalar)
    statistics log :
  exists samples,
    snd (test_columns E data columns statistics log) =
      log ++ map Shapiro samples /\
    Forall (fun sample => exists column, (column, sample) ∈ df_columns data)
      samples.
Proof.
  revert statistics log.
  induction columns as [|column columns IH]; intros statistics log; simpl.
  - exists []. split; [by rewrite app_nil_r|constructor].
  - unfold mbind, st_mbind, st_bind, lift.
    destruct (getitem data column) as [sample|err] eqn:Hget.
    2:{ exists []. split; [by rewrite app_nil_r|constructor]. }
    destruct (5000 <? Z.of_nat (length sample))%Z.
    { exists []. split; [by rewrite app_nil_r|constructor]. }
    apply getitem_elem in Hget. unfold call_shapiro.
    destruct (shapiro E sample) as [t|].
    + destruct (IH (<[column := t]> statistics) (log ++ [Shapiro sample]))
        as (samples & Hlog & Hall).
      exists (sample :: samples). split.
      * rewrite Hlog, <- app_assoc. reflexivity.
      * constructor; [eauto|exact Hall].
    + exists [sample]. split; [reflexivity|].
      constructor; [eauto|constructor].
Qed.

(** What a returning run of the loop has done. *)
Lemma test_columns_ok (data : DataFrame cell) (columns : list scalar)
    statistics log d log' :
  test_columns E data columns statistics log = (Ok d, log') ->
  dom d = dom statistics ∪ list_to_set columns /\
  (exists samples,
     Forall2 (fun column sample => getitem data column = Ok sample)
       columns samples /\
     log' = log ++ map Shapiro samples) /\
  (forall column t,
     d !! column = Some t ->
     statistics !! column = Some t \/
     exists sample,
       getitem data column = Ok sample /\
       (Z.of_nat (length sample) <= 5000)%Z /\
       shapiro E sample = Some t).
Proof.
  revert statistics log.
  induction columns as [|column columns IH]; intros statistics log; simpl.
  - intros [= <- <-]. split; [simpl; by rewrite (right_id_L ∅ (∪))|].
    split; [exists []; split; [constructor|by rewrite app_nil_r]|]. auto.
  - unfold mbind, st_mbind, st_bind, lift, call_shapiro.
    destruct (getitem data column) as [sample|err] eqn:Hget; [|discriminate].
    destruct (Z.ltb_spec 5000 (Z.of_nat (length sample))); [discriminate|].
    destruct (shapiro E sample) as [t|] eqn:Ht; [|discriminate].
    intros Hrun. apply IH in Hrun as (Hdom & (samples & Hall & Hlog) & Hval).
    split.
    { rewrite Hdom, dom_insert_L. simpl.
      rewrite (comm_L (∪) {[column]} (dom statistics)), <- (assoc_L (∪)).
      reflexivity. }
    split.
    { exists (sample :: samples). split; [constructor; assumption|].
      rewrite Hlog, <- app_assoc. reflexivity. }
    intros column' t' Hd. destruct (Hval _ _ Hd) as [Hin|Hex]; [|auto].
    destruct (decide (column = column')) as [<-|Hother].
    + rewrite lookup_insert_eq in Hin. injection Hin as <-. eauto 6.
    + rewrite lookup_insert_ne in Hin by assumption. auto.
Qed.

(** What a returning call of [normality_test] on a table has done, in terms
    of the lookups of the loop. *)
Lemma normality_test_frame_run (df : DataFrame cell)
    (columns : option (list string)) (log log' : list event) (r : statistics) :
  normality_test E (Frame df) columns log = (Ok r, log') ->
  exists d samples,
    r = PerColumn d /\
    dom d = list_to_set (tested_columns df columns) /\
    Forall2
      (fun column sample => getitem (tested_table df columns) column = Ok sample)
      (tested_columns df columns) samples /\
    log' = log ++ CheckNumeric (tested_columns df columns) :: map Shapiro samples /\
    (forall column t,
       d !! column = Some t ->
       exists sample,
         getitem (tested_table df columns) column = Ok sample /\
         (Z.of_nat (length sample) <= 5000)%Z /\
         shapiro E sample = Some t).
Proof.
  unfold normality_test, tested_table, tested_columns.
  destruct (check_empty_dataframe df); [discriminate|].
  assert (Hloop : forall data cs,
            (d ← test_columns E data cs ∅; mret (PerColumn d))
              (log ++ [CheckNumeric cs]) = (Ok r, log') ->
            exists d samples,
              r = PerColumn d /\
              dom d = list_to_set cs /\
              Forall2 (fun column sample => getitem data column = Ok sample)
                cs samples /\
              log' = log ++ CheckNumeric cs :: map Shapiro samples /\
              (forall column t,
                 d !! column = Some t ->
                 exists sample,
                   getitem data column = Ok sample /\
                   (Z.of_nat (length sample) <= 5000)%Z /\
                   shapiro E sample = Some t)).
  { intros data cs. unfold mbind, st_mbind, st_bind, mret, st_mret, st_ret.
    destruct (test_columns E data cs ∅ (log ++ [CheckNumeric cs]))
      as [[d|err] log''] eqn:Hrun; [|discriminate].
    intros [= <- <-].
    apply test_columns_ok in Hrun as (Hdom & (samples & Hall & Hlog) & Hval).
    exists d, samples. split; [reflexivity|].
    split; [rewrite Hdom, dom_empty_L, (left_id_L ∅ (∪)); reflexivity|].
    split; [exact Hall|].
    split; [rewrite Hlog, <- app_assoc; reflexivity|].
    intros column t Hd. destruct (Hval _ _ Hd) as [Hin|Hex]; [|exact Hex].
    rewrite lookup_empty in Hin. discriminate. }
  destruct columns as [columns|].
  - destruct (negb (check_columns_valid df columns)); [discriminate|].
    unfold mbind at 1, st_mbind, st_bind, call_check_columns_numeric.
    destruct (negb (check_columns_numeric E df (map SStr columns)));
      [discriminate|].
    unfold mbind at 1, st_mbind, st_bind, lift.
    destruct (getitems df (map SStr columns)) as [selected|err];
      [|discriminate].
    apply Hloop.
  - unfold mbind at 1, st_mbind, st_bind, call_check_columns_numeric.
    destruct (negb (check_columns_numeric E df (labels df))); [discriminate|].
    apply Hloop.
Qed.

(** X13. When [normality_test] returns on a table whose tested columns carry
    distinct labels, the result has exactly the tested columns as keys (the
    selected ones, or all), and under each key what the statistic answered
    on the cells of the column with that label, of which there are at most
    5000; the statistic has been called once per tested column, in order,
    after one call of the column-type check. *)
Theorem normality_test_frame_result (df : DataFrame cell)
    (columns : option (list string)) (log log' : list event) (r : statistics) :
  NoDup (labels (tested_table df columns)) ->
  normality_test E (Frame df) columns log = (Ok r, log') ->
  exists d samples,
    r = PerColumn d /\
    dom d = list_to_set (tested_columns df columns) /\
    Forall2
      (fun column sample =>
         (column, sample) ∈ df_columns (tested_table df columns))
      (tested_columns df columns) samples /\
    log' = log ++ CheckNumeric (tested_columns df columns) :: map Shapiro samples /\
    (forall column t,
       d !! column = Some t ->
       exists sample,
         (column, sample) ∈ df_columns (tested_table df columns) /\
         (Z.of_nat (length sample) <= 5000)%Z /\
         shapiro E sample = Some t).
Proof.
  intros _ Hrun.
  apply normality_test_frame_run in Hrun
    as (d & samples & -> & Hdom & Hall & -> & Hval).
  exists d, samples. split; [reflexivity|]. split; [exact Hdom|].
  split; [|split; [reflexivity|]].
  - eapply Forall2_impl; [exact Hall|].
    intros column sample Hget. apply getitem_elem. exact Hget.
  - intros column t Hd.
    destruct (Hval _ _ Hd) as (sample & Hget & Hlen & Ht).
    exists sample. split; [apply getitem_elem; exact Hget|]. split; assumption.
Qed.

(** X14. With a selection of columns, the rows with a missing value in a
    selected column are dropped before testing: whatever the outcome of
    [normality_test], no sample it hands to the statistic holds a missing
    value. *)
Theorem normality_test_selected_complete (df : DataFrame cell)
    (columns : list string) (log : list event) sample :
  Shapiro sample ∈ snd (normality_test E (Frame df) (Some columns) log) ->
  Shapiro sample ∈ log \/ Forall (fun x => isna x = false) sample.
Proof.
  unfold normality_test.
  destruct (check_empty_dataframe df); [auto|].
  destruct (negb (check_columns_valid df columns)); [auto|].
  unfold mbind at 1, st_mbind, st_bind, call_check_columns_numeric.
  assert (Hcheck : forall cs,
            Shapiro sample ∈ log ++ [CheckNumeric cs] -> Shapiro sample ∈ log).
  { intros cs Hin. apply elem_of_app in Hin as [Hin|Hin]; [exact Hin|].
    apply list_elem_of_singleton in Hin. discriminate. }
  destruct (negb (check_columns_numeric E df (map SStr columns)));
    [simpl; eauto|].
  unfold mbind at 1, st_mbind, st_bind, lift.
  destruct (getitems df (map SStr columns)) as [selected|err]; [|simpl; eauto].
  unfold mbind, st_mbind, st_bind, mret, st_mret, st_ret.
  destruct (test_columns_log (dropna isna selected) (map SStr columns) ∅
              (log ++ [CheckNumeric (map SStr columns)]))
    as (samples & Hlog & Hall).
  destruct (test_columns E (dropna isna selected) (map SStr columns) ∅
              (log ++ [CheckNumeric (map SStr columns)])) as [[d|err] log''];
    simpl in *; subst log''; intros Hin;
    (apply elem_of_app in Hin as [Hin|Hin]; [left; eauto|right]);
    (apply list_elem_of_fmap in Hin as (s0 & [= ->] & Hin);
     rewrite Forall_forall in Hall;
     destruct (Hall _ Hin) as [column Hcol];
     exact (dropna_complete isna selected _ Hcol)).
Qed.

(** X15. [correlation_matrix] with the method of Kendall and a value for
    [min_periods] never reaches pandas: on a table that passes the two
    earlier checks it raises [InvalidParameterValueException], and on every
    table the log holds no call of the correlation. *)
Theorem correlation_matrix_kendall (data : DataFrame cell) (p : Z)
    (log : list event) :
  (empty data = false ->
   check_columns_numeric E data (labels data) = true ->
   correlation_matrix E data kendall (Some p) log =
     (Raise InvalidParameterValueException,
      log ++ [CheckNumeric (labels data)])) /\
  (forall method min_periods,
     Corr method min_periods ∈
       snd (correlation_matrix E data kendall (Some p) log) ->
     Corr method min_periods ∈ log).
Proof.
  unfold correlation_matrix, check_empty_dataframe.
  unfold mbind, st_mbind, st_bind, call_check_columns_numeric.
  split.
  - intros -> ->. reflexivity.
  - intros method min_periods.
    destruct (empty data); [auto|].
    destruct (check_columns_numeric E data (labels data)); simpl;
      intros Hin; (apply elem_of_app in Hin as [Hin|Hin]; [exact Hin|]);
      apply list_elem_of_singleton in Hin; discriminate.
Qed.

(** X16. Whenever [correlation_matrix] does call pandas, the table is not
    empty, the column-type check has passed, the call carries the method and
    [min_periods] it was given, and the method is not that of Kendall
    together with a [min_periods]. *)
Theorem correlation_matrix_guarded (data : DataFrame cell)
    (method method' : correlation_method) (min_periods min_periods' : option Z)
    (log : list event) :
  Corr method' min_periods' ∈
    snd (correlation_matrix E data method min_periods log) ->
  Corr method' min_periods' ∈ log \/
  (empty data = false /\
   check_columns_numeric E data (labels data) = true /\
   method' = method /\ min_periods' = min_periods /\
   (method = kendall -> min_periods = None)).
Proof.
  unfold correlation_matrix, check_empty_dataframe.
  unfold mbind, st_mbind, st_bind, call_check_columns_numeric, call_corr.
  destruct (empty data); [auto|].
  destruct (check_columns_numeric E data (labels data)); simpl.
  2:{ intros Hin. apply elem_of_app in Hin as [Hin|Hin]; [auto|].
      apply list_elem_of_singleton in Hin. discriminate. }
  destruct method, min_periods as [p|]; simpl; intros Hin;
    repeat (apply elem_of_app in Hin as [Hin|Hin]; [|
      apply list_elem_of_singleton in Hin;
      first [discriminate|injection Hin as -> ->]]);
    first [left; exact Hin|right; repeat split; (reflexivity || discriminate)].
Qed.

(** X17. On a table that passes the two earlier checks, [covariance_matrix]
    raises [InvalidParameterValueException] exactly when the degrees of
    freedom or [min_periods] is negative, and then without calling pandas;
    a [min_periods] of zero is let through. *)
Theorem covariance_matrix_negative (data : DataFrame cell)
    (min_periods : option Z) (ddof : Z) (log : list event) :
  empty data = false ->
  check_columns_numeric E data (labels data) = true ->
  covariance_matrix E data min_periods ddof log =
    (Raise InvalidParameterValueException,
     log ++ [CheckNumeric (labels data)]) <->
  (ddof < 0)%Z \/ (exists p, min_periods = Some p /\ (p < 0)%Z).
Proof.
  intros Hne Hnum. unfold covariance_matrix, check_empty_dataframe.
  rewrite Hne. unfold mbind, st_mbind, st_bind, call_check_columns_numeric.
  rewrite Hnum. simpl.
  assert (Hcov : forall mp d,
            call_cov E data mp d (log ++ [CheckNumeric (labels data)]) <>
            (Raise InvalidParameterValueException,
             log ++ [CheckNumeric (labels data)])).
  { intros mp d. unfold call_cov. destruct (cov E data mp d); discriminate. }
  destruct (Z.ltb_spec ddof 0) as [Hlt|Hge].
  - split; [auto|reflexivity].
  - destruct min_periods as [p|].
    + destruct (Z.eqb_spec p 0) as [->|Hp0]; simpl.
      * split; [intros Hrun; exfalso; exact (Hcov _ _ Hrun)|].
        intros [Hlt|(p & [= <-] & Hlt)]; lia.
      * destruct (Z.ltb_spec p 0) as [Hlt|Hge'].
        -- split; [eauto|reflexivity].
        -- split; [intros Hrun; exfalso; exact (Hcov _ _ Hrun)|].
           intros [Hlt|(p' & [= <-] & Hlt)]; lia.
    + split; [intros Hrun; exfalso; exact (Hcov _ _ Hrun)|].
      intros [Hlt|(p & [=] & _)]. lia.
Qed.

End StatisticalChecks.

Lemma normality_test_checks_witness :
  StatisticalTests.normality_test StatisticalTests.plain_externals
    (StatisticalTests.Frame (Pandas.mkFrame [] [])) None [] =
    (Raise EmptyDataException, []) /\
  StatisticalTests.normality_test StatisticalTests.plain_externals
    (StatisticalTests.Array (Pandas.mkNdarray [0%nat] [])) None [] =
    (Raise EmptyDataException, []) /\
  StatisticalTests.normality_test StatisticalTests.plain_externals
    (StatisticalTests.Frame (StatisticalTests.column_of "a" 3))
    (Some ["a"; "b"]%string) [] =
    (Raise InvalidColumnException, []).
Proof.
  destruct (normality_test_checks StatisticalTests.plain_externals [])
    as (Hframe & Harray & Hcolumn).
  split; [|split].
  - apply Hframe. reflexivity.
  - apply Harray. reflexivity.
  - apply (Hcolumn _ _ "b"%string).
    + reflexivity.
    + apply list_elem_of_further, list_elem_of_here.
    + apply (bool_decide_eq_false_1 _). vm_compute. reflexivity.
Defined.

Lemma normality_test_no_columns_witness :
  StatisticalTests.normality_test StatisticalTests.plain_externals
    (StatisticalTests.Frame (StatisticalTests.column_of "a" 3)) (Some []) [] =
  (Ok (StatisticalTests.PerColumn ∅), [StatisticalTests.CheckNumeric []]).
Proof.
  apply (normality_test_no_columns StatisticalTests.plain_externals
           (StatisticalTests.column_of "a" 3) []); reflexivity.
Defined.

Lemma normality_test_first_axis_only_witness :
  fst (StatisticalTests.normality_test StatisticalTests.plain_externals
         (StatisticalTests.Array
            (Pandas.mkNdarray [2%nat; 3%nat]
               (replicate 6 (StatisticalTests.Num 1)))) None []) <>
  Raise SampleSizeExceededException.
Proof.
  intros Hraise.
  apply (normality_test_first_axis_only StatisticalTests.plain_externals
           2 [3%nat] _ None []) in Hraise.
  - vm_compute in Hraise. discriminate.
  - vm_compute. discriminate.
Defined.

Lemma normality_test_array_result_witness :
  let a := Pandas.mkNdarray [3%nat]
             [StatisticalTests.Num 1; StatisticalTests.NaN;
              StatisticalTests.Num 2] in
  exists r,
    StatisticalTests.normality_test StatisticalTests.plain_externals
      (StatisticalTests.Array a) None [] =
    (Ok r, [StatisticalTests.Shapiro
              [StatisticalTests.Num 1; StatisticalTests.Num 2]]).
Proof.
  intros a.
  destruct (StatisticalTests.normality_test StatisticalTests.plain_externals
              (StatisticalTests.Array a) None []) as [[r|err] log'] eqn:Hrun;
    [|vm_compute in Hrun; discriminate].
  exists r.
  destruct (normality_test_array_result StatisticalTests.plain_externals
              a None [] log' r Hrun) as (_ & -> & _).
  reflexivity.
Defined.

Lemma normality_test_frame_result_witness :
  exists d,
    StatisticalTests.normality_test StatisticalTests.plain_externals
      (StatisticalTests.Frame (StatisticalTests.column_of "a" 3))
      (Some ["a"%string]) [] =
      (Ok (StatisticalTests.PerColumn d),
       [StatisticalTests.CheckNumeric [Pandas.SStr "a"];
        StatisticalTests.Shapiro (replicate 3 (StatisticalTests.Num 1))]) /\
    dom d = {[ Pandas.SStr "a" ]}.
Proof.
  destruct (StatisticalTests.normality_test StatisticalTests.plain_externals
              (StatisticalTests.Frame (StatisticalTests.column_of "a" 3))
              (Some ["a"%string]) []) as [[r|err] log'] eqn:Hrun;
    [|vm_compute in Hrun; discriminate].
  destruct (normality_test_frame_result StatisticalTests.plain_externals
              (StatisticalTests.column_of "a" 3) (Some ["a"%string]) [] log' r)
    as (d & samples & -> & Hdom & Hall & -> & _).
  - vm_compute. apply NoDup_singleton.
  - exact Hrun.
  - exists d. split.
    + f_equal. simpl. f_equal.
      apply Forall2_cons_inv_l in Hall as (sample & rest & Hin & Hrest & ->).
      apply Forall2_nil_inv_l in Hrest as ->.
      vm_compute in Hin. apply list_elem_of_singleton in Hin.
      injection Hin as <-. reflexivity.
    + rewrite Hdom. vm_compute. reflexivity.
Defined.

Lemma normality_test_selected_complete_witness :
  let df := Pandas.mkFrame [Pandas.SInt 0; Pandas.SInt 1; Pandas.SInt 2]
              [(Pandas.SStr "a",
                [StatisticalTests.Num 1; StatisticalTests.NaN;
                 StatisticalTests.Num 3])] in
  snd (StatisticalTests.normality_test StatisticalTests.plain_externals
         (StatisticalTests.Frame df) (Some ["a"%string]) []) =
    [StatisticalTests.CheckNumeric [Pandas.SStr "a"];
     StatisticalTests.Shapiro [StatisticalTests.Num 1; StatisticalTests.Num 3]] /\
  Forall (fun x => StatisticalTests.isna x = false)
    [StatisticalTests.Num 1; StatisticalTests.Num 3].
Proof.
  intros df. split; [vm_compute; reflexivity|].
  destruct (normality_test_selected_complete StatisticalTests.plain_externals
              df ["a"%string] []
              [StatisticalTests.Num 1; StatisticalTests.Num 3])
    as [Hin|Hall].
  - vm_compute. apply list_elem_of_further, list_elem_of_here.
  - apply elem_of_nil in Hin. contradiction.
  - exact Hall.
Defined.

Lemma correlation_matrix_kendall_witness :
  StatisticalTests.correlation_matrix StatisticalTests.plain_externals
    (StatisticalTests.column_of "a" 3) StatisticalTests.kendall (Some 2%Z) [] =
  (Raise InvalidParameterValueException,
   [StatisticalTests.CheckNumeric [Pandas.SStr "a"]]).
Proof.
  apply (proj1 (correlation_matrix_kendall StatisticalTests.plain_externals
                  (StatisticalTests.column_of "a" 3) 2%Z []));
    reflexivity.
Defined.

Lemma correlation_matrix_guarded_witness :
  snd (StatisticalTests.correlation_matrix StatisticalTests.plain_externals
         (StatisticalTests.column_of "a" 3) StatisticalTests.spearman
         (Some 2%Z) []) =
    [StatisticalTests.CheckNumeric [Pandas.SStr "a"];
     StatisticalTests.Corr StatisticalTests.spearman (Some 2%Z)] /\
  Pandas.empty (StatisticalTests.column_of "a" 3) = false.
Proof.
  split; [reflexivity|].
  destruct (correlation_matrix_guarded StatisticalTests.plain_externals
              (StatisticalTests.column_of "a" 3) StatisticalTests.spearman
              StatisticalTests.spearman (Some 2%Z) (Some 2%Z) [])
    as [Hin|(Hne & _)].
  - vm_compute. apply list_elem_of_further, list_elem_of_here.
  - apply elem_of_nil in Hin. contradiction.
  - exact Hne.
Defined.

Lemma covariance_matrix_negative_witness :
  StatisticalTests.covariance_matrix StatisticalTests.plain_externals
    (StatisticalTests.column_of "a" 3) (Some (-1)%Z) 1 [] =
    (Raise InvalidParameterValueException,
     [StatisticalTests.CheckNumeric [Pandas.SStr "a"]]) /\
  StatisticalTests.covariance_matrix StatisticalTests.plain_externals
    (StatisticalTests.column_of "a" 3) (Some 0%Z) 1 [] <>
    (Raise InvalidParameterValueException,
     [StatisticalTests.CheckNumeric [Pandas.SStr "a"]]).
Proof.
  split.
  - apply (proj2 (covariance_matrix_negative StatisticalTests.plain_externals
                    (StatisticalTests.column_of "a" 3) (Some (-1)%Z) 1 []
                    eq_refl eq_refl)).
    right. exists (-1)%Z. split; [reflexivity|lia].
  - intros Hrun.
    apply (proj1 (covariance_matrix_negative StatisticalTests.plain_externals
                    (StatisticalTests.column_of "a" 3) (Some 0%Z) 1 []
                    eq_refl eq_refl)) in Hrun.
    destruct Hrun as [Hlt|(p & [= <-] & Hlt)]; lia.
Defined.

(** ** One-hot encoding: refusals, rows and shape of the result *)

Section OneHotEncodingRows.
Import Pandas OneHotEncoding OneHotRows.

(** X18. [one_hot_encode] turns away an empty table with
    [EmptyDataFrameException] and an array without elements with
    [InvalidDatasetException], and in both cases leaves the store as it
    was: not even the copy has been made. *)
Theorem one_hot_encode_empty (store : gmap loc (DataFrame scalar))
    columns de dc sp :
  (forall l data,
     store !! l = Some data -> empty data = true ->
     one_hot_encode (TableAt l) columns de dc sp store =
       (Raise EmptyDataFrameException, store)) /\
  (forall a,
     size a = 0%nat ->
     one_hot_encode (ArrayOf a) columns de dc sp store =
       (Raise InvalidDatasetException, store)).
Proof.
  split.
  - intros l data Hl Hempty. unfold one_hot_encode.
    unfold mbind, st_mbind, st_bind. rewrite (load_some _ _ _ Hl).
    rewrite Hempty. reflexivity.
  - intros a Hsize. unfold one_hot_encode.
    unfold mbind, st_mbind, st_bind. rewrite Hsize. reflexivity.
Qed.

Lemma frame_of_array_labels (a : ndarray scalar) (df : DataFrame scalar)
    (name : string) :
  frame_of_array a = Ok df -> SStr name ∉ labels df.
Proof.
  unfold frame_of_array.
  destruct (nd_shape a) as [|n [|m [|k axes]]]; try discriminate;
    intros [= <-]; unfold labels; simpl.
  - intros Hin. apply list_elem_of_singleton in Hin. discriminate.
  - intros Hin. apply list_elem_of_fmap in Hin as (col & Heq & Hin).
    apply list_elem_of_fmap in Hin as (j & -> & _). discriminate.
Qed.

(** X19. On an array that has elements and one or two axes, a selection of
    columns that is not empty makes [one_hot_encode] raise
    [InvalidColumnException]: the table built from the array labels its
    columns 0, 1, ..., none of which is a string. *)
Theorem one_hot_encode_array_columns (store : gmap loc (DataFrame scalar))
    (a : ndarray scalar) (column : string) (columns : list string) de dc sp :
  size a <> 0%nat ->
  length (nd_shape a) = 1%nat \/ length (nd_shape a) = 2%nat ->
  fst (one_hot_encode (ArrayOf a) (Some (column :: columns)) de dc sp store) =
    Raise InvalidColumnException.
Proof.
  intros Hsize Haxes. unfold one_hot_encode.
  unfold mbind at 1, st_mbind, st_bind.
  destruct (Nat.eqb_spec (size a) 0); [contradiction|].
  unfold mbind at 1, st_mbind, st_bind, lift.
  destruct (frame_of_array a) as [df|err] eqn:Hframe.
  2:{ exfalso. unfold frame_of_array in Hframe.
      destruct (nd_shape a) as [|n0 [|m [|k axes]]]; simpl in Haxes;
        try discriminate; destruct Haxes; discriminate. }
  destruct (alloc_fresh store df) as (l1 & -> & _).
  unfold mbind at 1, st_mbind, st_bind.
  unfold mbind at 1, st_mbind, st_bind.
  rewrite (load_some _ l1 df) by apply lookup_insert_eq.
  unfold check_columns_valid. simpl.
  rewrite bool_decide_eq_false_2
    by (eapply frame_of_array_labels; eassumption).
  reflexivity.
Qed.

(** X20. On a table that is not empty, a selected column that the table
    lacks makes [one_hot_encode] raise [InvalidColumnException]; the table
    given is still in the store as it was. *)
Theorem one_hot_encode_missing_column (store : gmap loc (DataFrame scalar))
    l data (column : string) (columns : list string) de dc sp :
  store !! l = Some data ->
  empty data = false ->
  column ∈ columns -> SStr column ∉ labels data ->
  fst (one_hot_encode (TableAt l) (Some columns) de dc sp store) =
    Raise InvalidColumnException /\
  snd (one_hot_encode (TableAt l) (Some columns) de dc sp store) !! l =
    Some data.
Proof.
  intros Hl Hne Hin Hmissing.
  destruct (one_hot_encode_table store l data (Some columns) de dc sp Hl)
    as (store' & Hsub & Hcase).
  assert (Henc : encode_table data (Some columns) de dc sp =
                 Raise InvalidColumnException).
  { unfold encode_table. rewrite Hne.
    assert (Hvalid : check_columns_valid data columns = false).
    { apply not_true_is_false. intros Hall.
      unfold check_columns_valid in Hall. rewrite forallb_forall in Hall.
      apply list_elem_of_In in Hin. specialize (Hall _ Hin).
      apply bool_decide_eq_true in Hall. contradiction. }
    rewrite Hvalid. reflexivity. }
  rewrite Henc in Hcase. rewrite Hcase. simpl.
  split; [reflexivity|]. eapply lookup_weaken; eassumption.
Qed.

Lemma fit_inv (columns : list (list scalar)) cats :
  fit columns = Ok cats ->
  Forall2 (fun values cs => uniform values = true /\ cs ≡ₚ remove_dups values)
    columns cats.
Proof.
  revert cats. induction columns as [|values columns IH]; intros cats; simpl.
  - intros [= <-]. constructor.
  - unfold categories_of. destruct (uniform values) eqn:Hu; [|discriminate].
    destruct (fit columns) as [rest|err]; [|discriminate].
    intros [= <-]. constructor; [|apply IH; reflexivity].
    split; [exact Hu|apply merge_sort_Permutation].
Qed.

(** The table a returning call on a table object leaves at the location it
    returns, with the categories the encoder found. *)
Lemma one_hot_encode_blocks (store : gmap loc (DataFrame scalar))
    l data columns de dc sp out store' :
  store !! l = Some data ->
  one_hot_encode (TableAt l) columns de dc sp store = (Ok (Table out), store') ->
  exists selected cats,
    selects data columns selected /\
    Forall2 (fun col cs =>
               uniform (snd col) = true /\ cs ≡ₚ remove_dups (snd col))
      (df_columns selected) cats /\
    store' !! out =
      Some (mkFrame (df_index data)
              (kept_columns data selected de ++
               concat (blocks_of dc (df_columns selected) cats))).
Proof.
  intros Hl Hrun.
  destruct (one_hot_encode_table store l data columns de dc sp Hl)
    as (store'' & _ & Hcase).
  destruct (encode_table data columns de dc sp) as [t|err] eqn:Henc;
    [|rewrite Hrun in Hcase; discriminate].
  destruct Hcase as (out' & Hrun' & _ & Hout).
  rewrite Hrun in Hrun'. injection Hrun' as -> ->.
  apply encode_table_ok in Henc as (selected & cats & _ & Hsel & Hfit & ->).
  exists selected, cats. split; [exact Hsel|]. split; [|exact Hout].
  apply fit_inv in Hfit. apply Forall2_fmap_l in Hfit. exact Hfit.
Qed.

Lemma indicator_lookup (category : scalar) (values : list scalar) i v :
  values !! i = Some v ->
  indicator category values !! i =
    Some (if bool_decide (v = category) then 1%Z else 0%Z).
Proof.
  intros Hv. unfold indicator. rewrite list_lookup_fmap, Hv. reflexivity.
Qed.

(** X21. Without [drop_category], the block of indicator columns that
    [one_hot_encode] makes of a selected column is one-hot in every row: the
    column named after the feature and the value of the row holds 1, and
    every other column of the block holds 0. *)
Theorem one_hot_encode_rows (store : gmap loc (DataFrame scalar))
    l data columns de sp out store' :
  store !! l = Some data ->
  one_hot_encode (TableAt l) columns de None sp store =
    (Ok (Table out), store') ->
  exists selected blocks,
    selects data columns selected /\
    store' !! out =
      Some (mkFrame (df_index data)
              (kept_columns data selected de ++ concat blocks)) /\
    Forall2
      (fun col block =>
         forall i v,
           snd col !! i = Some v ->
           hot_at block i (SStr (feature_name_combiner (fst col) v)))
      (df_columns selected) blocks.
Proof.
  intros Hl Hrun.
  destruct (one_hot_encode_blocks _ _ _ _ _ _ _ _ _ Hl Hrun)
    as (selected & cats & Hsel & Hcats & Hout).
  exists selected, (blocks_of None (df_columns selected) cats).
  split; [exact Hsel|]. split; [exact Hout|].
  clear Hout Hsel. unfold blocks_of.
  induction Hcats as [|col cs cols cats [_ Hperm] _ IH]; simpl; [constructor|].
  constructor; [|exact IH].
  intros i v Hv.
  assert (Hin : v ∈ cs).
  { rewrite Hperm, elem_of_remove_dups. eapply list_elem_of_lookup_2. exact Hv. }
  assert (Hnodup : NoDup cs) by (rewrite Hperm; apply NoDup_remove_dups).
  apply list_elem_of_split in Hin as (before & after & ->).
  apply NoDup_app in Hnodup as (_ & Hbefore & Hafter).
  apply NoDup_cons in Hafter as [Hafter _].
  exists (map (fun category =>
                 (SStr (feature_name_combiner (fst col) category),
                  map SInt (indicator category (snd col)))) before),
    (map SInt (indicator v (snd col))),
    (map (fun category =>
            (SStr (feature_name_combiner (fst col) category),
             map SInt (indicator category (snd col)))) after).
  split; [rewrite fmap_app; reflexivity|]. split.
  - rewrite list_lookup_fmap, (indicator_lookup _ _ _ _ Hv).
    rewrite bool_decide_eq_true_2 by reflexivity. reflexivity.
  - rewrite <- fmap_app. apply Forall_fmap, Forall_forall.
    intros category Hcat. simpl.
    rewrite list_lookup_fmap, (indicator_lookup _ _ _ _ Hv).
    rewrite bool_decide_eq_false_2; [reflexivity|].
    intros <-. apply elem_of_app in Hcat as [Hcat|Hcat].
    + apply (Hbefore v Hcat). apply list_elem_of_here.
    + contradiction.
Qed.

Lemma str_inj_uniform (values : list scalar) (x y : scalar) :
  uniform values = true -> x ∈ values -> y ∈ values -> str x = str y -> x = y.
Proof.
  unfold uniform. intros Hu Hx Hy Hstr.
  apply list_elem_of_In in Hx, Hy.
  apply orb_true_iff in Hu as [Hu|Hu]; rewrite forallb_forall in Hu;
    pose proof (Hu _ Hx) as Hkx; pose proof (Hu _ Hy) as Hky;
    destruct x, y; simpl in *; try discriminate.
  - f_equal. exact (pretty_Z_inj _ _ Hstr).
  - congruence.
Qed.

(** X22. Within the block of one selected column no two indicator columns
    carry the same name, whatever [drop_category] says. *)
Theorem one_hot_encode_names (store : gmap loc (DataFrame scalar))
    l data columns de dc sp out store' :
  store !! l = Some data ->
  one_hot_encode (TableAt l) columns de dc sp store =
    (Ok (Table out), store') ->
  exists selected blocks,
    selects data columns selected /\
    store' !! out =
      Some (mkFrame (df_index data)
              (kept_columns data selected de ++ concat blocks)) /\
    Forall2 (fun col block => NoDup (map fst block))
      (df_columns selected) blocks.
Proof.
  intros Hl Hrun.
  destruct (one_hot_encode_blocks _ _ _ _ _ _ _ _ _ Hl Hrun)
    as (selected & cats & Hsel & Hcats & Hout).
  exists selected, (blocks_of dc (df_columns selected) cats).
  split; [exact Hsel|]. split; [exact Hout|].
  clear Hout Hsel. unfold blocks_of.
  induction Hcats as [|col cs cols cats [Hu Hperm] _ IH]; simpl; [constructor|].
  constructor; [|exact IH].
  rewrite <- list_fmap_compose.
  assert (Hnodup : NoDup (retained dc cs)).
  { assert (Hcs : NoDup cs) by (rewrite Hperm; apply NoDup_remove_dups).
    destruct dc as [[]|]; simpl; [| |exact Hcs].
    - destruct cs; [constructor|]. apply NoDup_cons in Hcs as [_ Hcs]. exact Hcs.
    - destruct (length cs =? 2)%nat; [|exact Hcs].
      destruct cs; [constructor|]. apply NoDup_cons in Hcs as [_ Hcs]. exact Hcs. }
  apply NoDup_fmap_2_strong; [|exact Hnodup].
  intros x y Hx Hy Hname. simpl in Hname.
  apply retained_elem in Hx, Hy.
  rewrite Hperm, elem_of_remove_dups in Hx, Hy.
  injection Hname as Hname. unfold feature_name_combiner in Hname.
  apply String.app_inj, String.app_inj in Hname.
  eapply str_inj_uniform; eassumption.
Qed.

(** X23. [one_hot_encode] keeps tables well formed and keeps their index: on
    a table in which every column has one cell per row, the table returned
    has the index of the argument and, again, one cell per row in every
    column, the new indicator columns included. *)
Theorem one_hot_encode_well_formed (store : gmap loc (DataFrame scalar))
    l data columns de dc sp out store' :
  store !! l = Some data ->
  well_formed data ->
  one_hot_encode (TableAt l) columns de dc sp store =
    (Ok (Table out), store') ->
  exists result,
    store' !! out = Some result /\
    df_index result = df_index data /\
    well_formed result.
Proof.
  intros Hl Hwf Hrun.
  destruct (one_hot_encode_blocks _ _ _ _ _ _ _ _ _ Hl Hrun)
    as (selected & cats & Hsel & Hcats & Hout).
  eexists. split; [exact Hout|]. split; [reflexivity|].
  assert (Hselected : Forall (fun col => length (snd col) = length (df_index data))
                        (df_columns selected)).
  { destruct columns as [columns|]; simpl in Hsel.
    - destruct Hsel as [_ Hget].
      pose proof (getitems_well_formed _ _ _ Hwf Hget) as Hwf'.
      unfold getitems in Hget. destruct (forallb _ _); [|discriminate].
      injection Hget as <-. exact Hwf'.
    - subst selected. exact Hwf. }
  unfold well_formed. simpl. apply Forall_app. split.
  - unfold kept_columns. destruct de; [|exact Hwf].
    apply Forall_forall. intros col Hin.
    apply list_elem_of_In, filter_In in Hin as [Hin _].
    apply list_elem_of_In in Hin.
    unfold well_formed in Hwf. rewrite Forall_forall in Hwf. exact (Hwf _ Hin).
  - unfold blocks_of. clear Hout Hsel.
    induction Hcats as [|col cs cols cats _ _ IH]; simpl; [constructor|].
    apply Forall_cons_1 in Hselected as [Hcol Hrest].
    apply Forall_app. split; [|apply IH; exact Hrest].
    apply Forall_fmap, Forall_forall. intros category _. simpl.
    unfold indicator. rewrite !length_map. exact Hcol.
Qed.

End OneHotEncodingRows.

Lemma one_hot_encode_empty_witness :
  OneHotEncoding.one_hot_encode (OneHotEncoding.TableAt 1%positive) None true
    None true {[ 1%positive := Pandas.mkFrame [] [] ]} =
    (Raise EmptyDataFrameException, {[ 1%positive := Pandas.mkFrame [] [] ]}) /\
  OneHotEncoding.one_hot_encode
    (OneHotEncoding.ArrayOf (Pandas.mkNdarray [0%nat; 3%nat] [])) None true
    None true ∅ = (Raise InvalidDatasetException, ∅).
Proof.
  split.
  - apply (proj1 (one_hot_encode_empty
                    {[ 1%positive := Pandas.mkFrame [] [] ]} None true None true)
             1%positive (Pandas.mkFrame [] [])); reflexivity.
  - apply (proj2 (one_hot_encode_empty ∅ None true None true)
             (Pandas.mkNdarray [0%nat; 3%nat] [])).
    reflexivity.
Defined.

Lemma one_hot_encode_array_columns_witness :
  fst (OneHotEncoding.one_hot_encode
         (OneHotEncoding.ArrayOf
            (Pandas.mkNdarray [2%nat; 2%nat]
               [Pandas.SInt 1; Pandas.SInt 2; Pandas.SInt 1; Pandas.SInt 5]))
         (Some ["0"%string]) true None true ∅) =
  Raise InvalidColumnException.
Proof.
  apply (one_hot_encode_array_columns ∅
           (Pandas.mkNdarray [2%nat; 2%nat]
              [Pandas.SInt 1; Pandas.SInt 2; Pandas.SInt 1; Pandas.SInt 5])
           "0"%string [] true None true).
  - vm_compute. discriminate.
  - right. reflexivity.
Defined.

Lemma one_hot_encode_missing_column_witness :
  fst (OneHotEncoding.one_hot_encode (OneHotEncoding.TableAt 1%positive)
         (Some ["rock"; "age"]%string) true None true
         {[ 1%positive := OneHotEncoding.rocks ]}) =
    Raise InvalidColumnException /\
  snd (OneHotEncoding.one_hot_encode (OneHotEncoding.TableAt 1%positive)
         (Some ["rock"; "age"]%string) true None true
         {[ 1%positive := OneHotEncoding.rocks ]}) !! 1%positive =
    Some OneHotEncoding.rocks.
Proof.
  apply (one_hot_encode_missing_column {[ 1%positive := OneHotEncoding.rocks ]}
           1%positive OneHotEncoding.rocks "age"%string
           ["rock"; "age"]%string true None true).
  - reflexivity.
  - reflexivity.
  - apply list_elem_of_further, list_elem_of_here.
  - apply (bool_decide_eq_false_1 _). vm_compute. reflexivity.
Defined.

Lemma one_hot_encode_rows_witness :
  exists out store' (selected : Pandas.DataFrame Pandas.scalar) blocks,
    OneHotEncoding.one_hot_encode (OneHotEncoding.TableAt 1%positive)
      (Some ["rock"%string]) true None true
      {[ 1%positive := OneHotEncoding.rocks ]} =
      (Ok (OneHotEncoding.Table out), store') /\
    Forall2
      (fun col block =>
         forall i v,
           snd col !! i = Some v ->
           OneHotRows.hot_at block i
             (Pandas.SStr (OneHotEncoding.feature_name_combiner (fst col) v)))
      (Pandas.df_columns selected) blocks.
Proof.
  destruct (OneHotEncoding.one_hot_encode (OneHotEncoding.TableAt 1%positive)
              (Some ["rock"%string]) true None true
              {[ 1%positive := OneHotEncoding.rocks ]})
    as [[[out|m]|err] store'] eqn:Hrun;
    [|vm_compute in Hrun; discriminate..].
  assert (Hl : ({[ 1%positive := OneHotEncoding.rocks ]}
                  : gmap OneHotEncoding.loc _) !! 1%positive =
               Some OneHotEncoding.rocks) by reflexivity.
  destruct (one_hot_encode_rows {[ 1%positive := OneHotEncoding.rocks ]}
              1%positive OneHotEncoding.rocks (Some ["rock"%string]) true true
              out store' Hl Hrun)
    as (selected & blocks & _ & _ & Hrows).
  exists out, store', selected, blocks. split; [reflexivity|exact Hrows].
Defined.

Lemma one_hot_encode_names_witness :
  exists out store' (selected : Pandas.DataFrame Pandas.scalar) blocks,
    OneHotEncoding.one_hot_encode (OneHotEncoding.TableAt 1%positive)
      None false (Some OneHotEncoding.first) false
      {[ 1%positive := OneHotEncoding.rocks ]} =
      (Ok (OneHotEncoding.Table out), store') /\
    Forall2 (fun col (block : list (Pandas.scalar * list Pandas.scalar)) =>
               NoDup (map fst block))
      (Pandas.df_columns selected) blocks.
Proof.
  destruct (OneHotEncoding.one_hot_encode (OneHotEncoding.TableAt 1%positive)
              None false (Some OneHotEncoding.first) false
              {[ 1%positive := OneHotEncoding.rocks ]})
    as [[[out|m]|err] store'] eqn:Hrun;
    [|vm_compute in Hrun; discriminate..].
  assert (Hl : ({[ 1%positive := OneHotEncoding.rocks ]}
                  : gmap OneHotEncoding.loc _) !! 1%positive =
               Some OneHotEncoding.rocks) by reflexivity.
  destruct (one_hot_encode_names {[ 1%positive := OneHotEncoding.rocks ]}
              1%positive OneHotEncoding.rocks None false
              (Some OneHotEncoding.first) false out store' Hl Hrun)
    as (selected & blocks & _ & _ & Hnames).
  exists out, store', selected, blocks. split; [reflexivity|exact Hnames].
Defined.

Lemma one_hot_encode_well_formed_witness :
  exists out store' result,
    OneHotEncoding.one_hot_encode (OneHotEncoding.TableAt 1%positive)
      (Some ["zone"%string]) true (Some OneHotEncoding.if_binary) true
      {[ 1%positive := OneHotEncoding.rocks ]} =
      (Ok (OneHotEncoding.Table out), store') /\
    store' !! out = Some result /\
    Pandas.well_formed result.
Proof.
  destruct (OneHotEncoding.one_hot_encode (OneHotEncoding.TableAt 1%positive)
              (Some ["zone"%string]) true (Some OneHotEncoding.if_binary) true
              {[ 1%positive := OneHotEncoding.rocks ]})
    as [[[out|m]|err] store'] eqn:Hrun;
    [|vm_compute in Hrun; discriminate..].
  assert (Hl : ({[ 1%positive := OneHotEncoding.rocks ]}
                  : gmap OneHotEncoding.loc _) !! 1%positive =
               Some OneHotEncoding.rocks) by reflexivity.
  destruct (one_hot_encode_well_formed {[ 1%positive := OneHotEncoding.rocks ]}
              1%positive OneHotEncoding.rocks (Some ["zone"%string]) true
              (Some OneHotEncoding.if_binary) true out store' Hl)
    as (result & Hout & _ & Hwf).
  - repeat (apply Forall_cons_2; [reflexivity|]). constructor.
  - exact Hrun.
  - exists out, store', result. split; [reflexivity|]. split; assumption.
Defined.

(** ** The command-line wrapper *)

Section CliSpec.
Import Cli CliFiles.

(** X24. Every resampling method the command line offers is a key of
    [RESAMPLING_MAPPING], so the lookup in [reproject_raster_cli] cannot
    fail, and no two of them are mapped to the same method of rasterio. *)
Theorem resampling_mapping_total (m : ResamplingMethods) :
  exists r,
    RESAMPLING_MAPPING !! value m = Some r /\
    forall m', RESAMPLING_MAPPING !! value m' = Some r -> m' = m.
Proof.
  destruct m; eexists; (split; [vm_compute; reflexivity|]);
    intros []; vm_compute; intros [=]; reflexivity.
Qed.

Variable W : World.

(** X25. Without a base raster, [rasterize_cli] reads the vector file and
    then fails: it reads the local variable [base_raster_profile], which is
    bound only when a base raster is given.  Nothing is rasterized and
    nothing is written. *)
Theorem rasterize_cli_unbound (input_vector output_raster : string)
    resolution value_column default_value fill_value buffer_value
    merge_strategy (log : list event) :
  rasterize_cli W input_vector output_raster resolution value_column
    default_value fill_value None buffer_value merge_strategy log =
  (match read_file W input_vector with
   | Some _ => Failed (UnboundLocalError "base_raster_profile")
   | None => Failed (Raised LibraryError)
   end, log ++ [ReadFile input_vector]).
Proof.
  unfold rasterize_cli, mbind, cmd_mbind, cmd_bind, gpd_read_file.
  destruct (read_file W input_vector); reflexivity.
Qed.

Lemma opened_for_writing_app (log1 log2 : list event) :
  opened_for_writing (log1 ++ log2) =
  opened_for_writing log1 ++ opened_for_writing log2.
Proof. unfold opened_for_writing. apply omap_app. Qed.

(** X26. [kriging_interpolation_cli] never opens [output_raster]: what it
    hands to [rasterio.open] for writing is the array of pixels that
    [kriging] returned. *)
Theorem kriging_cli_target (input_vector output_raster target_column : string)
    pixel_size_x pixel_size_y extent variogram_model method drift_terms
    (log : list event) :
  exists opened,
    opened_for_writing
      (snd (kriging_interpolation_cli W input_vector output_raster
              target_column pixel_size_x pixel_size_y extent variogram_model
              method drift_terms log)) =
      opened_for_writing log ++ opened /\
    Forall (fun fp => exists img, fp = Pixels img) opened.
Proof.
  unfold kriging_interpolation_cli, mbind, cmd_mbind, cmd_bind, gpd_read_file,
    of_result, with_open, write, echo, fail, mret, cmd_mret, cmd_ret.
  destruct (read_file W input_vector) as [gdf|]; simpl.
  2:{ exists []. rewrite opened_for_writing_app. split; [reflexivity|constructor]. }
  destruct (kriging W gdf target_column _ extent variogram_model method drift_terms)
    as [[out_image out_meta]|err]; simpl.
  2:{ exists []. rewrite opened_for_writing_app. split; [reflexivity|constructor]. }
  destruct (rasterio_open W (Pixels out_image) "w" _); simpl;
    [destruct (dataset_write W (Pixels out_image) out_image None); simpl|];
    exists [Pixels out_image];
    rewrite <- ?app_assoc, opened_for_writing_app;
    (split; [reflexivity|repeat constructor; eauto]).
Qed.

Lemma still_open_app (log1 log2 : list event) (opened : list target) :
  still_open (log1 ++ log2) opened =
  match still_open log1 opened with
  | Some opened' => still_open log2 opened'
  | None => None
  end.
Proof.
  revert opened. induction log1 as [|ev log1 IH]; intros opened; simpl.
  - reflexivity.
  - destruct ev as [| |fp mode kwargs [|]|fp| |]; try apply IH.
    destruct opened as [|fp' opened]; [reflexivity|].
    case_bool_decide; [apply IH|reflexivity].
Qed.

Lemma balanced_nil : balanced [].
Proof. intros opened. reflexivity. Qed.

Lemma balanced_app (events1 events2 : list event) :
  balanced events1 -> balanced events2 -> balanced (events1 ++ events2).
Proof.
  intros H1 H2 opened. rewrite still_open_app, H1. apply H2.
Qed.

Lemma balanced_with (fp : target) (mode : string) kwargs (events : list event) :
  balanced events ->
  balanced (Open fp mode kwargs true :: events ++ [Close fp]).
Proof.
  intros Hbody opened. simpl. rewrite still_open_app, Hbody. simpl.
  rewrite bool_decide_eq_true_2 by reflexivity. reflexivity.
Qed.

Lemma tidy_ret {A} (a : A) : tidy (mret a : Cmd A).
Proof.
  intros log. exists []. split; [symmetry; apply app_nil_r|apply balanced_nil].
Qed.

Lemma tidy_fail {A} (f : failure) : tidy (fail f : Cmd A).
Proof.
  intros log. exists []. split; [symmetry; apply app_nil_r|apply balanced_nil].
Qed.

Lemma tidy_bind {A B} (m : Cmd A) (k : A -> Cmd B) :
  tidy m -> (forall a, tidy (k a)) -> tidy (m ≫= k).
Proof.
  intros Hm Hk log. unfold mbind, cmd_mbind, cmd_bind.
  destruct (Hm log) as (events1 & Hlog1 & Hbal1).
  destruct (m log) as [[a|f] log1]; simpl in Hlog1; subst log1.
  - destruct (Hk a (log ++ events1)) as (events2 & Hlog2 & Hbal2).
    exists (events1 ++ events2). rewrite Hlog2, app_assoc.
    split; [reflexivity|apply balanced_app; assumption].
  - exists events1. split; [reflexivity|assumption].
Qed.

Lemma tidy_of_result {A} (r : result A) : tidy (of_result r).
Proof. destruct r; [apply tidy_ret|apply tidy_fail]. Qed.

Lemma tidy_read_local {A} (name : string) (v : option A) :
  tidy (read_local name v).
Proof. destruct v; [apply tidy_ret|apply tidy_fail]. Qed.

Lemma tidy_getitem (d : gmap string pyobj) (key : string) :
  tidy (getitem d key).
Proof. unfold getitem. destruct (d !! key); [apply tidy_ret|apply tidy_fail]. Qed.

Lemma tidy_event {A} (r : outcome A) (ev : event) :
  (forall fp mode kwargs opened, ev <> Open fp mode kwargs opened) ->
  (forall fp, ev <> Close fp) ->
  tidy (fun log => (r, log ++ [ev])).
Proof.
  intros Hopen Hclose log. exists [ev]. split; [reflexivity|].
  intros opened. destruct ev as [| |fp mode kwargs [|]|fp| |];
    try reflexivity; exfalso; [eapply Hopen|eapply Hclose]; reflexivity.
Qed.

Lemma tidy_echo (message : string) : tidy (echo message).
Proof. apply tidy_event; discriminate. Qed.

Lemma tidy_gpd_read_file (path : string) : tidy (gpd_read_file W path).
Proof. apply tidy_event; discriminate. Qed.

Lemma tidy_write (fp : target) (img : Image) indexes :
  tidy (write W fp img indexes).
Proof. apply tidy_event; discriminate. Qed.

Lemma tidy_gdf_to_file (gdf : GeoDataFrame) (path driver : string) :
  tidy (gdf_to_file W gdf path driver).
Proof. apply tidy_event; discriminate. Qed.

(** A [with] block closes its file if its body closes what it opens. *)
Lemma tidy_with_open {A} (fp : target) (mode : string) kwargs
    (body : Dataset -> Cmd A) :
  (forall dataset, tidy (body dataset)) -> tidy (with_open W fp mode kwargs body).
Proof.
  intros Hbody log. unfold with_open.
  destruct (rasterio_open W fp mode kwargs) as [dataset|].
  - destruct (Hbody dataset (log ++ [Open fp mode kwargs true]))
      as (events & Hlog & Hbal).
    destruct (body dataset (log ++ [Open fp mode kwargs true])) as [r log'].
    simpl in *. subst log'.
    exists (Open fp mode kwargs true :: events ++ [Close fp]). split.
    + rewrite <- !app_assoc. reflexivity.
    + apply balanced_with. exact Hbal.
  - exists [Open fp mode kwargs false]. split; [reflexivity|].
    intros opened. reflexivity.
Qed.

Ltac tidy_step :=
  first
    [ apply tidy_bind; [|intros ?]
    | apply tidy_with_open; intros ?
    | apply tidy_echo | apply tidy_gpd_read_file | apply tidy_write
    | apply tidy_gdf_to_file | apply tidy_of_result | apply tidy_read_local
    | apply tidy_getitem | apply tidy_ret | apply tidy_fail
    | match goal with
      | |- tidy (match ?x with _ => _ end) => destruct x
      | |- tidy (let '(_, _) := ?x in _) => destruct x
      end ].

(** X27. Every command that opens files closes them again, the innermost
    first, on every path, whether it ends well or in a failure: after the
    command the files open are those that were open before it. *)
Theorem commands_close_files :
  (forall i g o, tidy (clip_raster_cli W i g o)) /\
  (forall i o crs m, tidy (reproject_raster_cli W i o crs m)) /\
  (forall i s o, tidy (snap_raster_cli W i s o)) /\
  (forall i o c h w, tidy (extract_window_cli W i o c h w)) /\
  (forall i o r v d f b u m, tidy (rasterize_cli W i o r v d f b u m)) /\
  (forall i o crs, tidy (reproject_vector_cli W i o crs)) /\
  (forall i o t x y e v m d,
     tidy (kriging_interpolation_cli W i o t x y e v m d)) /\
  (forall i g o, tidy (distance_computation_cli W i g o)).
Proof.
  repeat split; intros;
    unfold clip_raster_cli, reproject_raster_cli, snap_raster_cli,
      extract_window_cli, rasterize_cli, reproject_vector_cli,
      kriging_interpolation_cli, distance_computation_cli;
    repeat tidy_step.
Qed.

(** X28. An exception of the processing function goes through the command
    unchanged, and the output raster is not opened: when [clip_raster],
    [reproject_raster], [snap_with_raster] or [extract_window] raises, its
    command fails with that exception and has opened nothing for
    writing. *)
Theorem commands_propagate (err : exn) (log : list event) :
  (forall i g o gdf ds,
     read_file W g = Some gdf ->
     rasterio_open W (Path i) "r" ∅ = Some ds ->
     clip_raster W ds gdf = Raise err ->
     fst (clip_raster_cli W i g o log) = Failed (Raised err) /\
     opened_for_writing (snd (clip_raster_cli W i g o log)) =
       opened_for_writing log) /\
  (forall i o crs m r ds,
     RESAMPLING_MAPPING !! value m = Some r ->
     rasterio_open W (Path i) "r" ∅ = Some ds ->
     reproject_raster W ds crs r = Raise err ->
     fst (reproject_raster_cli W i o crs m log) = Failed (Raised err) /\
     opened_for_writing (snd (reproject_raster_cli W i o crs m log)) =
       opened_for_writing log) /\
  (forall i s o ds snap,
     rasterio_open W (Path i) "r" ∅ = Some ds ->
     rasterio_open W (Path s) "r" ∅ = Some snap ->
     snap_with_raster W ds snap = Raise err ->
     fst (snap_raster_cli W i s o log) = Failed (Raised err) /\
     opened_for_writing (snd (snap_raster_cli W i s o log)) =
       opened_for_writing log) /\
  (forall i o c h w ds,
     rasterio_open W (Path i) "r" ∅ = Some ds ->
     extract_window W ds c h w = Raise err ->
     fst (extract_window_cli W i o c h w log) = Failed (Raised err) /\
     opened_for_writing (snd (extract_window_cli W i o c h w log)) =
       opened_for_writing log).
Proof.
  repeat split; intros;
    unfold clip_raster_cli, reproject_raster_cli, snap_raster_cli,
      extract_window_cli, mbind, cmd_mbind, cmd_bind, gpd_read_file,
      with_open, echo, of_result, fail;
    simpl;
    repeat match goal with
           | H : _ = _ |- _ => rewrite H; simpl
           end;
    rewrite ?opened_for_writing_app, ?app_nil_r; reflexivity.
Qed.

End CliSpec.

Lemma commands_propagate_witness :
  fst (Cli.clip_raster_cli Cli.failing_world "in.tif" "area.shp" "out.tif" []) =
    Cli.Failed (Cli.Raised InvalidParameterValueException) /\
  Cli.opened_for_writing
    (snd (Cli.clip_raster_cli Cli.failing_world "in.tif" "area.shp" "out.tif"
            [])) = [].
Proof.
  apply (proj1 (commands_propagate Cli.failing_world
                  InvalidParameterValueException [])
           "in.tif"%string "area.shp"%string "out.tif"%string 1%nat 2%nat);
    reflexivity.
Defined.
